(** * SiteBlocker: a shallow embedding of [siteblocker.py]

    The program toggles a delimited block of redirect lines inside the hosts
    file and records the session in a lock file.  The embedding follows the
    Python source function by function:

    - text is [string], holding the UTF-8 bytes; the content of a file is
      the text Python reads from it in text mode, where lines end with the
      character LF;
    - [f.readlines()] is [readlines], [f.writelines(lines)] is [writelines];
    - the methods of [SiteBlocker] are computations in a small state and
      exit monad over a [World] holding the configuration file, the lock
      file, the hosts file with the permissions of the process on it, the
      clock and the standard output; [sys.exit(code)] is the outcome
      [Exit code], an exception that nothing catches the outcome [Uncaught];
    - the exits are those of the source ([sys.exit] for a missing
      configuration file, a [PermissionError] on the hosts file, a missing or
      unknown command, and in the signal handler) and the exception of
      [json.load] on a configuration file that does not load; [World] says
      what is taken for granted of the files;
    - the [while True] loop of [run_interactive] ends when a signal is
      delivered: the number of rounds completed before that is an argument;
    - [int(duration.total_seconds())] goes through binary64 as in Python;
    - [datetime.fromisoformat] and [datetime.isoformat] belong to the Python
      library: they are parameters of the development. *)

From Stdlib Require Import ZArith List Bool Lia.
From Stdlib Require Import Strings.String Strings.Ascii Numbers.DecimalString.
Import ListNotations.
Open Scope string_scope.

(** ** Text *)

Module Text.

Definition LF : ascii := "010"%char.

(** The one-character string Python writes as "\n". *)
Definition NL : string := String LF "".

(** [needle in hay] on Python strings: substring search. *)
Fixpoint contains (needle hay : string) : bool :=
  String.prefix needle hay ||
  match hay with
  | "" => false
  | String _ rest => contains needle rest
  end.

(** [f.readlines()]: the lines of a text, each with its terminator; the last
    one has none when the text does not end in LF; no line for the empty
    text. *)
Fixpoint readlines (s : string) : list string :=
  match s with
  | "" => []
  | String c rest =>
      if Ascii.eqb c LF then NL :: readlines rest
      else match readlines rest with
           | [] => [String c ""]
           | l :: ls => String c l :: ls
           end
  end.

(** [f.writelines(lines)] on a file opened with mode 'w': the new content is
    the concatenation of the items, nothing added between them. *)
Definition writelines (lines : list string) : string :=
  fold_right String.append "" lines.

(** Does the character occur in the string? *)
Fixpoint has_char (c : ascii) (s : string) : bool :=
  match s with
  | "" => false
  | String d rest => Ascii.eqb d c || has_char c rest
  end.

(** [str(n)] for an integer. *)
Definition str (z : Z) : string := NilZero.string_of_int (Z.to_int z).

(** [str.lower()] on ASCII text: the letters A to Z are lowered.  (On other
    text [str.lower()] also lowers the letters outside ASCII; none of them
    becomes a letter of the four command names.) *)
Definition lower_ascii (c : ascii) : ascii :=
  let n := nat_of_ascii c in
  if (65 <=? n)%nat && (n <=? 90)%nat then ascii_of_nat (n + 32) else c.

Fixpoint lower (s : string) : string :=
  match s with
  | "" => ""
  | String c rest => String (lower_ascii c) (lower rest)
  end.

(** Text is held as its UTF-8 bytes.  The characters of a text: each lead
    byte with the continuation bytes its value announces. *)
Definition utf8_length (c : ascii) : nat :=
  let n := nat_of_ascii c in
  if (n <? 192)%nat then 1%nat
  else if (n <? 224)%nat then 2%nat
  else if (n <? 240)%nat then 3%nat
  else 4%nat.

Fixpoint utf8_chars_from (cur : string) (pending : nat) (s : string)
  : list string :=
  match s with
  | "" => match cur with "" => [] | _ => [cur] end
  | String c rest =>
      match pending with
      | O =>
          (match cur with "" => [] | _ => [cur] end ++
           utf8_chars_from (String c "") (utf8_length c - 1) rest)%list
      | S k => utf8_chars_from (cur ++ String c "") k rest
      end
  end.

Definition utf8_chars (s : string) : list string := utf8_chars_from "" 0 s.

(** The text made of the bytes of the given values. *)
Fixpoint bytes (l : list nat) : string :=
  match l with
  | [] => ""
  | n :: rest => String (ascii_of_nat n) (bytes rest)
  end.

(** The characters [str.strip()] removes: those for which [str.isspace] is
    true, U+0009 to U+000D, U+001C to U+0020, U+0085, U+00A0, U+1680, U+2000
    to U+200A, U+2028, U+2029, U+202F, U+205F and U+3000. *)
Definition is_space (ch : string) : bool :=
  match ch with
  | String c "" =>
      let n := nat_of_ascii c in
      ((9 <=? n)%nat && (n <=? 13)%nat) || ((28 <=? n)%nat && (n <=? 32)%nat)
  | _ =>
      existsb (String.eqb ch)
        [ bytes [194; 133]; bytes [194; 160]; bytes [225; 154; 128];
          bytes [226; 128; 128]; bytes [226; 128; 129]; bytes [226; 128; 130];
          bytes [226; 128; 131]; bytes [226; 128; 132]; bytes [226; 128; 133];
          bytes [226; 128; 134]; bytes [226; 128; 135]; bytes [226; 128; 136];
          bytes [226; 128; 137]; bytes [226; 128; 138]; bytes [226; 128; 168];
          bytes [226; 128; 169]; bytes [226; 128; 175]; bytes [226; 129; 159];
          bytes [227; 128; 128] ]
  end.

Fixpoint lstrip_chars (chars : list string) : list string :=
  match chars with
  | [] => []
  | ch :: rest => if is_space ch then lstrip_chars rest else chars
  end.

Definition strip (s : string) : string :=
  writelines (rev (lstrip_chars (rev (lstrip_chars (utf8_chars s))))).


End Text.
Import Text.

(** ** Module constants *)

Definition MARKER_START : string := "# SiteBlocker START".
Definition MARKER_END : string := "# SiteBlocker END".

(** ** The configuration ([config.json] once loaded)

    A configuration that loads is taken to be a JSON object whose
    [redirect_ip], when present, is a string and whose [blocklist], when
    present, is a list of strings.  A field is [None] when the key is absent
    from the object; the code reads both with [dict.get] and a default. *)
Record Config := mkConfig {
  cfg_redirect_ip : option string;
  cfg_blocklist : option (list string)
}.

Definition get_redirect_ip (config : Config) : string :=
  match cfg_redirect_ip config with Some ip => ip | None => "127.0.0.1" end.

Definition get_blocklist (config : Config) : list string :=
  match cfg_blocklist config with Some l => l | None => [] end.

(** ** The block rewrite *)

(** [l.append(x)] on a Python list. *)
Definition list_append {A : Type} (l : list A) (x : A) : list A :=
  (l ++ [x])%list.

(** One iteration of the [for line in lines] loop of
    [remove_blocker_entries]; the state is [(result, in_blocker_section)]. *)
Definition remove_step (st : list string * bool) (line : string)
  : list string * bool :=
  let (result, in_blocker_section) := st in
  if contains MARKER_START line then (result, true)
  else if contains MARKER_END line then (result, false)
  else if negb in_blocker_section then (list_append result line, in_blocker_section)
  else (result, in_blocker_section).

Definition remove_loop (st : list string * bool) (lines : list string)
  : list string * bool :=
  fold_left remove_step lines st.

Definition remove_blocker_entries (lines : list string) : list string :=
  fst (remove_loop ([], false) lines).

(** The line generated for one domain. *)
Definition entry_line (redirect_ip domain : string) : string :=
  redirect_ip ++ " " ++ domain ++ NL.

Definition add_blocker_entries (config : Config) (lines : list string)
  : list string :=
  let lines := remove_blocker_entries lines in
  let lines := list_append lines (NL ++ MARKER_START ++ NL) in
  let redirect_ip := get_redirect_ip config in
  let lines :=
    fold_left (fun acc domain => list_append acc (entry_line redirect_ip domain))
              (get_blocklist config) lines in
  list_append lines (MARKER_END ++ NL).


(** ** Durations *)

(** A [datetime] is a number of microseconds since the epoch, a [timedelta]
    a number of microseconds (the resolution of both Python types). *)
Definition datetime := Z.
Definition timedelta := Z.

(** A binary64 number, as a signed mantissa and an exponent: the value is
    [mantissa * 2 ^ exponent].  (A timedelta is bounded, its seconds are in
    the range where binary64 has 53 bits and no exponent limit is met.) *)
Definition float : Type := (Z * Z)%type.

(** [n / d] on integers ([d] positive): the binary64 nearest to the
    quotient, the one with the even mantissa when two are as near. *)
Definition true_divide (n d : Z) : float :=
  let a := Z.abs n in
  if (a =? 0)%Z then (0, 0)%Z
  else
    let scaled (e : Z) : Z * Z :=
      if (0 <=? e)%Z then (a, d * 2 ^ e)%Z else (a * 2 ^ (- e), d)%Z in
    let e1 := (Z.log2 a - Z.log2 d - 52)%Z in
    let e :=
      if (2 ^ 52 <=? fst (scaled e1) / snd (scaled e1))%Z then e1
      else (e1 - 1)%Z in
    let q := (fst (scaled e) / snd (scaled e))%Z in
    let r := (fst (scaled e) mod snd (scaled e))%Z in
    let mantissa :=
      if ((snd (scaled e) <? 2 * r) ||
          ((2 * r =? snd (scaled e)) && Z.odd q))%Z
      then (q + 1)%Z else q in
    (Z.sgn n * mantissa, e)%Z.

(** [int(x)] on a float: the integer part, towards 0. *)
Definition int_of_float (x : float) : Z :=
  let (mantissa, e) := x in
  if (0 <=? e)%Z then (mantissa * 2 ^ e)%Z else Z.quot mantissa (2 ^ (- e)).

(** [duration.total_seconds()]: the microseconds divided by 10**6. *)
Definition total_seconds (duration : timedelta) : float :=
  true_divide duration 1000000.

(** [int(duration.total_seconds())] *)
Definition total_seconds_int (duration : timedelta) : Z :=
  int_of_float (total_seconds duration).

(** [divmod(a, b)] on integers: floor division and its remainder. *)
Definition divmod (a b : Z) : Z * Z := (a / b, a mod b)%Z.

Definition format_duration (duration : timedelta) : string :=
  let total_seconds := total_seconds_int duration in
  let (hours, remainder) := divmod total_seconds 3600 in
  let (minutes, seconds) := divmod remainder 60 in
  if (hours >? 0)%Z then
    str hours ++ "h " ++ str minutes ++ "m " ++ str seconds ++ "s"
  else if (minutes >? 0)%Z then
    str minutes ++ "m " ++ str seconds ++ "s"
  else
    str seconds ++ "s".

(** ** The world the process runs in *)

(** What [CONFIG_FILE] holds: nothing (the file does not exist), a text that
    [json.load] does not load (with the exception it raises), or a JSON
    object of the shape of [Config]. *)
Inductive ConfigFile : Type :=
| ConfigMissing
| ConfigInvalid (exception : string)
| ConfigLoaded (config : Config).

(** The files are those the process can work with: the hosts file exists
    and is text Python decodes, [hosts_file] being that text as text mode
    gives it (line ends as LF); opening it raises nothing but
    [PermissionError]; the lock file can be written, read and removed. *)
Record World := mkWorld {
  config_path : string;            (* CONFIG_FILE, as printed *)
  config_source : ConfigFile;      (* what CONFIG_FILE holds *)
  lock_file : option string;       (* LOCK_FILE: None when absent *)
  hosts_file : string;             (* text of HOSTS_FILE *)
  hosts_readable : bool;           (* open(HOSTS_FILE, 'r') is permitted *)
  hosts_writable : bool;           (* open(HOSTS_FILE, 'w') is permitted *)
  clock : datetime;                (* datetime.now() *)
  stdout : list string             (* what was printed, oldest first *)
}.

(** The configuration [json.load] returns, when the file exists and loads. *)
Definition config_file (w : World) : option Config :=
  match config_source w with
  | ConfigLoaded config => Some config
  | _ => None
  end.

Definition set_lock_file (v : option string) (w : World) : World :=
  mkWorld (config_path w) (config_source w) v (hosts_file w)
          (hosts_readable w) (hosts_writable w) (clock w) (stdout w).

Definition set_hosts_file (v : string) (w : World) : World :=
  mkWorld (config_path w) (config_source w) (lock_file w) v
          (hosts_readable w) (hosts_writable w) (clock w) (stdout w).

Definition set_clock (v : datetime) (w : World) : World :=
  mkWorld (config_path w) (config_source w) (lock_file w) (hosts_file w)
          (hosts_readable w) (hosts_writable w) v (stdout w).

Definition set_stdout (v : list string) (w : World) : World :=
  mkWorld (config_path w) (config_source w) (lock_file w) (hosts_file w)
          (hosts_readable w) (hosts_writable w) (clock w) v.

(** ** Computations that may leave through [sys.exit] or an exception

    [Uncaught e] is an exception that nothing catches: Python prints the
    traceback on the standard error and the process ends with status 1. *)

Inductive outcome (A : Type) : Type :=
| Return (a : A)
| Exit (code : Z)
| Uncaught (exception : string).
Arguments Return {A} a.
Arguments Exit {A} code.
Arguments Uncaught {A} exception.

Definition M (A : Type) : Type := World -> outcome A * World.

Definition ret {A} (a : A) : M A := fun w => (Return a, w).

Definition bind {A B} (m : M A) (k : A -> M B) : M B :=
  fun w =>
    match m w with
    | (Return a, w') => k a w'
    | (Exit code, w') => (Exit code, w')
    | (Uncaught e, w') => (Uncaught e, w')
    end.

Declare Scope prog_scope.
Delimit Scope prog_scope with prog.
Notation "x <- m ;; k" := (bind m (fun x => k))
  (at level 61, m at next level, right associativity) : prog_scope.
Notation "m ;; k" := (bind m (fun _ => k))
  (at level 61, right associativity) : prog_scope.
Open Scope prog_scope.

(** [sys.exit(code)] *)
Definition sys_exit {A} (code : Z) : M A := fun w => (Exit code, w).

(** [print(s)] *)
Definition print (s : string) : M unit :=
  fun w => (Return tt, set_stdout (list_append (stdout w) (s ++ NL)) w).

(** [print(s, end="", flush=True)] *)
Definition print_noend (s : string) : M unit :=
  fun w => (Return tt, set_stdout (list_append (stdout w) s) w).

(** [time.sleep(1)] *)
Definition sleep_1 : M unit :=
  fun w => (Return tt, set_clock (clock w + 1000000)%Z w).

(** ** The methods of [SiteBlocker] and [main] *)

Definition CR : string := String "013"%char "".

Definition sudo_message : string :=
  "Error: Need sudo privileges to modify /etc/hosts".

Definition usage_lines : list string :=
  [ "Usage: siteblocker <command>";
    "Commands:";
    "  activate   - Activate the site blocker";
    "  deactivate - Deactivate the site blocker";
    "  status     - Show current status";
    "  run        - Run interactive mode with timer" ].

Fixpoint print_all (msgs : list string) : M unit :=
  match msgs with
  | [] => ret tt
  | m :: rest => print m ;; print_all rest
  end.

Section SiteBlocker.

(** [datetime.fromisoformat]: the parsed time, or the text of the exception
    raised inside the [try] of [get_active_duration]. *)
Variable fromisoformat : string -> string + datetime.

(** [datetime.isoformat] *)
Variable isoformat : datetime -> string.

Definition load_config : M Config :=
  fun w =>
    match config_source w with
    | ConfigMissing =>
        (print ("Error: Config file not found at " ++ config_path w) ;;
         sys_exit 1) w
    | ConfigInvalid e => (Uncaught e, w)
    | ConfigLoaded config => (Return config, w)
    end.

Definition is_active : M bool :=
  fun w => (Return (match lock_file w with Some _ => true | None => false end), w).

Definition get_active_duration : M timedelta :=
  fun w =>
    match lock_file w with
    | None => (Return 0%Z, w)
    | Some content =>
        let start_time_str := strip content in
        match fromisoformat start_time_str with
        | inr start_time => (Return (clock w - start_time)%Z, w)
        | inl e => (print ("Error reading lock file: " ++ e) ;; ret 0%Z) w
        end
    end.

Definition read_hosts : M (list string) :=
  fun w =>
    if hosts_readable w then (Return (readlines (hosts_file w)), w)
    else (print sudo_message ;; sys_exit 1) w.

Definition write_hosts (lines : list string) : M unit :=
  fun w =>
    if hosts_writable w then (Return tt, set_hosts_file (writelines lines) w)
    else (print sudo_message ;; sys_exit 1) w.

Definition write_lock : M unit :=
  fun w => (Return tt, set_lock_file (Some (isoformat (clock w))) w).

Definition unlink_lock : M unit :=
  fun w => (Return tt, set_lock_file None w).

Definition activate (config : Config) : M unit :=
  active <- is_active ;;
  if active then
    duration <- get_active_duration ;;
    print ("SiteBlocker is already active (running for "
           ++ format_duration duration ++ ")")
  else
    print "Activating SiteBlocker..." ;;
    write_lock ;;
    lines <- read_hosts ;;
    write_hosts (add_blocker_entries config lines) ;;
    print "✓ SiteBlocker activated!" ;;
    print ("Blocking " ++ str (Z.of_nat (List.length (get_blocklist config)))
           ++ " domains") ;;
    print (NL ++ "Press Ctrl+C to deactivate").

Definition deactivate : M unit :=
  active <- is_active ;;
  if negb active then
    print "SiteBlocker is not active"
  else
    duration <- get_active_duration ;;
    print ("Deactivating SiteBlocker (was active for "
           ++ format_duration duration ++ ")...") ;;
    lines <- read_hosts ;;
    write_hosts (remove_blocker_entries lines) ;;
    (exists_ <- is_active ;;
     if exists_ then unlink_lock else ret tt) ;;
    print "✓ SiteBlocker deactivated!".

Definition status (config : Config) : M unit :=
  active <- is_active ;;
  if active then
    duration <- get_active_duration ;;
    let blocked_count := Z.of_nat (List.length (get_blocklist config)) in
    print "SiteBlocker is ACTIVE" ;;
    print ("Duration: " ++ format_duration duration) ;;
    print ("Blocking " ++ str blocked_count ++ " domains")
  else
    print "SiteBlocker is INACTIVE".

(** The handler [run_interactive] installs for SIGINT and SIGTERM. *)
Definition signal_handler : M unit :=
  print (NL ++ NL ++ "Deactivating...") ;;
  deactivate ;;
  sys_exit 0.

(** One round of the [while True] loop. *)
Definition timer_round : M unit :=
  duration <- get_active_duration ;;
  print_noend (CR ++ "Active for: " ++ format_duration duration) ;;
  sleep_1.

(** The loop has no exit of its own: it ends when a signal is delivered.
    [rounds] is the number of rounds completed before that; the handler
    then runs. *)
Fixpoint timer_loop (rounds : nat) : M unit :=
  match rounds with
  | O => signal_handler
  | S n => timer_round ;; timer_loop n
  end.

Definition run_interactive (rounds : nat) : M unit :=
  active <- is_active ;;
  if negb active then
    print "SiteBlocker is not active. Use 'activate' command first."
  else
    print "SiteBlocker is active. Timer running..." ;;
    print ("Press Ctrl+C to deactivate" ++ NL) ;;
    timer_loop rounds.

(** [main], with [argv] for [sys.argv]. *)
Definition main (argv : list string) (rounds : nat) : M unit :=
  blocker <- load_config ;;
  if (List.length argv <? 2)%nat then
    print_all usage_lines ;;
    sys_exit 1
  else
    let command := lower (nth 1 argv "") in
    if String.eqb command "activate" then
      activate blocker ;;
      run_interactive rounds
    else if String.eqb command "deactivate" then
      deactivate
    else if String.eqb command "status" then
      status blocker
    else if String.eqb command "run" then
      run_interactive rounds
    else
      print ("Unknown command: " ++ command) ;;
      sys_exit 1.

(** The status the process ends with: that of [sys.exit], 0 when [main]
    returns, 1 when an exception is not caught. *)
Definition exit_status (argv : list string) (rounds : nat) (w : World)
  : Z * World :=
  match main argv rounds w with
  | (Return _, w') => (0%Z, w')
  | (Exit code, w') => (code, w')
  | (Uncaught _, w') => (1%Z, w')
  end.

End SiteBlocker.


(** ** Notions used to state the properties *)

(** The lines a text file can be read as: LF only as the last character of
    a line, and every line but the last one ends with it. *)
Inductive file_lines : list string -> Prop :=
| file_lines_nil : file_lines []
| file_lines_last (p : string) :
    p <> "" -> has_char LF p = false -> file_lines [p]
| file_lines_cons (body : string) (rest : list string) :
    has_char LF body = false -> file_lines rest ->
    file_lines ((body ++ NL) :: rest).

(** A line that holds neither marker. *)
Definition marker_free (line : string) : Prop :=
  contains MARKER_START line = false /\ contains MARKER_END line = false.

(** Number of lines that hold the text [m]. *)
Definition count_containing (m : string) (lines : list string) : nat :=
  List.length (filter (contains m) lines).

(** The removal pass as a scan with a flag, a line being a marker line when
    it holds the marker text (the start marker is looked for first). *)
Fixpoint drop_blocks (inside : bool) (lines : list string) : list string :=
  match lines with
  | [] => []
  | line :: rest =>
      if contains MARKER_START line then drop_blocks true rest
      else if contains MARKER_END line then drop_blocks false rest
      else if inside then drop_blocks inside rest
      else line :: drop_blocks inside rest
  end.

(** The flag at the end of that scan. *)
Fixpoint inside_after (inside : bool) (lines : list string) : bool :=
  match lines with
  | [] => inside
  | line :: rest =>
      if contains MARKER_START line then inside_after true rest
      else if contains MARKER_END line then inside_after false rest
      else inside_after inside rest
  end.

(** Two worlds with the same files, permissions and configuration. *)
Definition same_files (w w' : World) : Prop :=
  config_file w' = config_file w /\ lock_file w' = lock_file w /\
  hosts_file w' = hosts_file w /\ hosts_readable w' = hosts_readable w /\
  hosts_writable w' = hosts_writable w.

(** A generated line that is one line of text and holds no marker. *)
Definition plain_entry (redirect_ip domain : string) : bool :=
  negb (has_char LF (redirect_ip ++ " " ++ domain)) &&
  negb (contains MARKER_START (entry_line redirect_ip domain)) &&
  negb (contains MARKER_END (entry_line redirect_ip domain)).


(** Does running [command] reach a read or a write of the hosts file?
    [activate] always does (at once, or in the deactivation that ends its
    timer); [deactivate] and [run] do when the session is active. *)
Definition needs_hosts (command : string) (active : bool) : bool :=
  String.eqb command "activate" ||
  (active && (String.eqb command "deactivate" || String.eqb command "run")).

Definition session_active (w : World) : bool :=
  match lock_file w with Some _ => true | None => false end.


(** The exit status of an outcome of [main]. *)
Definition status_of (o : outcome unit) : Z :=
  match o with Return _ => 0%Z | Exit code => code | Uncaught _ => 1%Z end.

(** [kept] is [lines] with some lines left out: no line added, none moved. *)
Inductive subsequence {A : Type} : list A -> list A -> Prop :=
| subsequence_nil : subsequence [] []
| subsequence_skip (x : A) (kept lines : list A) :
    subsequence kept lines -> subsequence kept (x :: lines)
| subsequence_keep (x : A) (kept lines : list A) :
    subsequence kept lines -> subsequence (x :: kept) (x :: lines).

(** [n] line ends. *)
Fixpoint newlines (n : nat) : string :=
  match n with
  | O => ""
  | S k => NL ++ newlines k
  end.

(** A computation that leaves the configuration file and the permissions
    on the hosts file as they are. *)
Definition keeps_env {A : Type} (m : M A) : Prop :=
  forall w,
    config_file (snd (m w)) = config_file w /\
    hosts_readable (snd (m w)) = hosts_readable w /\
    hosts_writable (snd (m w)) = hosts_writable w.

(** Foreground sessions one after the other: the program is started with the
    command [activate] and interrupted, once per item of [schedule], the item
    being the number of rounds of the timer before the interrupt. *)
Fixpoint run_sessions (fromisoformat : string -> string + datetime)
         (isoformat : datetime -> string) (schedule : list nat) (w : World)
  : World :=
  match schedule with
  | [] => w
  | rounds :: rest =>
      run_sessions fromisoformat isoformat rest
        (snd (exit_status fromisoformat isoformat
                          ["siteblocker.py"; "activate"] rounds w))
  end.

(** A line that is the marker text exactly, with or without its LF. *)
Definition is_exactly (m line : string) : bool :=
  String.eqb line m || String.eqb line (m ++ NL).

(** The same scan where a marker line is one that is exactly the marker
    text. *)
Fixpoint drop_blocks_exact (inside : bool) (lines : list string)
  : list string :=
  match lines with
  | [] => []
  | line :: rest =>
      if is_exactly MARKER_START line then drop_blocks_exact true rest
      else if is_exactly MARKER_END line then drop_blocks_exact false rest
      else if inside then drop_blocks_exact inside rest
      else line :: drop_blocks_exact inside rest
  end.

(** ** An instance of the library functions, for concrete runs

    [isoformat] of a naive datetime ("YYYY-MM-DDTHH:MM:SS", then ".ffffff"
    when the microseconds are not 0), and a [fromisoformat] that reads this
    format and reports any other text as Python does an unparsable one. *)
Module SampleDatetime.

Open Scope Z_scope.

(** Decimal digits of [z], padded with zeros on the left to [width]. *)
Definition pad (width : nat) (z : Z) : string :=
  let digits := str z in
  let missing := (width - String.length digits)%nat in
  (fix zeros (n : nat) : string :=
     match n with O => digits | S k => String "0"%char (zeros k) end) missing.

(** Year, month and day of the day number [z] (days since 1970-01-01), in the
    proleptic Gregorian calendar. *)
Definition civil_from_days (z : Z) : Z * Z * Z :=
  let z := z + 719468 in
  let era := z / 146097 in
  let doe := z - era * 146097 in
  let yoe := (doe - doe / 1460 + doe / 36524 - doe / 146096) / 365 in
  let doy := doe - (365 * yoe + yoe / 4 - yoe / 100) in
  let mp := (5 * doy + 2) / 153 in
  let d := doy - (153 * mp + 2) / 5 + 1 in
  let m := if mp <? 10 then mp + 3 else mp - 9 in
  let y := yoe + era * 400 + (if m <=? 2 then 1 else 0) in
  (y, m, d).

Definition days_from_civil (y m d : Z) : Z :=
  let y := if m <=? 2 then y - 1 else y in
  let era := y / 400 in
  let yoe := y - era * 400 in
  let mp := if m >? 2 then m - 3 else m + 9 in
  let doy := (153 * mp + 2) / 5 + d - 1 in
  let doe := yoe * 365 + yoe / 4 - yoe / 100 + doy in
  era * 146097 + doe - 719468.

Definition isoformat (t : datetime) : string :=
  let '(y, m, d) := civil_from_days (t / 86400000000) in
  let us := t mod 86400000000 in
  let secs := us / 1000000 in
  let micro := us mod 1000000 in
  (pad 4 y ++ "-" ++ pad 2 m ++ "-" ++ pad 2 d ++ "T" ++
   pad 2 (secs / 3600) ++ ":" ++ pad 2 (secs mod 3600 / 60) ++ ":" ++
   pad 2 (secs mod 60) ++
   (if Z.eqb micro 0 then "" else "." ++ pad 6 micro))%string.

Definition digit_value (c : ascii) : option Z :=
  let n := nat_of_ascii c in
  if ((48 <=? n) && (n <=? 57))%nat then Some (Z.of_nat n - 48) else None.

(** Reads exactly [n] decimal digits. *)
Fixpoint read_digits (n : nat) (acc : Z) (s : string) : option (Z * string) :=
  match n with
  | O => Some (acc, s)
  | S k =>
      match s with
      | String c rest =>
          match digit_value c with
          | Some v => read_digits k (10 * acc + v) rest
          | None => None
          end
      | EmptyString => None
      end
  end.

(** Reads the character [c]. *)
Definition read_char (c : ascii) (s : string) : option string :=
  match s with
  | String d rest => if Ascii.eqb c d then Some rest else None
  | EmptyString => None
  end.

Definition days_in_month (y m : Z) : Z :=
  days_from_civil (if m =? 12 then y + 1 else y) (if m =? 12 then 1 else m + 1) 1
  - days_from_civil y m 1.

Definition parse_datetime (s : string) : option datetime :=
  match read_digits 4 0 s with None => None | Some (y, s) =>
  match read_char "-" s with None => None | Some s =>
  match read_digits 2 0 s with None => None | Some (m, s) =>
  match read_char "-" s with None => None | Some s =>
  match read_digits 2 0 s with None => None | Some (d, s) =>
  match read_char "T" s with None => None | Some s =>
  match read_digits 2 0 s with None => None | Some (hh, s) =>
  match read_char ":" s with None => None | Some s =>
  match read_digits 2 0 s with None => None | Some (mm, s) =>
  match read_char ":" s with None => None | Some s =>
  match read_digits 2 0 s with None => None | Some (ss, s) =>
  let fraction :=
    match s with
    | EmptyString => Some 0
    | _ =>
        match read_char "." s with None => None | Some s =>
        match read_digits 6 0 s with
        | Some (f, EmptyString) => Some f
        | _ => None
        end end
    end in
  match fraction with None => None | Some micro =>
  if (1 <=? y) && (y <=? 9999) && (1 <=? m) && (m <=? 12) && (1 <=? d)
     && (d <=? days_in_month y m) && (hh <? 24) && (mm <? 60) && (ss <? 60)
  then Some (((days_from_civil y m d * 24 + hh) * 60 + mm) * 60 * 1000000
             + ss * 1000000 + micro)
  else None
  end end end end end end end end end end end end.

Definition fromisoformat (s : string) : string + datetime :=
  match parse_datetime s with
  | Some t => inr t
  | None => inl ("Invalid isoformat string: '" ++ s ++ "'")%string
  end.

End SampleDatetime.

(** ** Sample inputs *)

(** A hosts line that mentions the start marker in a trailing remark, and
    the line after it. *)
Definition remark_lines : list string :=
  [ "127.0.0.1 devbox  # SiteBlocker START is added below" ++ NL;
    "10.0.0.7 intranet" ++ NL ].

(** Lines before an unterminated block, and lines after its start. *)
Definition sample_before : list string := [ "127.0.0.1 localhost" ++ NL ].
Definition sample_after : list string :=
  [ "0.0.0.0 a.com" ++ NL; "::1 localhost" ++ NL ].

(** The scenario of the specification: two domains redirected to 0.0.0.0,
    an empty hosts file, no session. *)
Definition scenario_config : Config :=
  mkConfig (Some "0.0.0.0") (Some ["a.com"; "b.com"]).

Definition scenario_world : World :=
  mkWorld "/opt/siteblocker/config.json" (ConfigLoaded scenario_config) None ""
          true true 1700000000000000%Z [].

(** An active session: the hosts file of a machine with the block of the
    scenario in it, and a lock file written 3725 seconds before. *)
Definition active_world : World :=
  mkWorld "/opt/siteblocker/config.json" (ConfigLoaded scenario_config)
          (Some "2023-11-14T21:11:15")
          ("127.0.0.1 localhost" ++ NL ++ NL ++ "# SiteBlocker START" ++ NL ++
           "0.0.0.0 a.com" ++ NL ++ "0.0.0.0 b.com" ++ NL ++
           "# SiteBlocker END" ++ NL)
          true true 1700000000000000%Z [].

(** The hosts file of a machine that never ran the program, an inactive
    session; the same for a user who may read the file and not write it; and
    the same file with a session marked active. *)
Definition plain_hosts : string :=
  "127.0.0.1 localhost" ++ NL ++ "::1 localhost".

Definition plain_world : World :=
  mkWorld "/opt/siteblocker/config.json" (ConfigLoaded scenario_config) None
          plain_hosts true true 1700000000000000%Z [].

Definition unprivileged_world : World :=
  mkWorld "/opt/siteblocker/config.json" (ConfigLoaded scenario_config) None
          plain_hosts true false 1700000000000000%Z [].

Definition active_plain_world : World :=
  mkWorld "/opt/siteblocker/config.json" (ConfigLoaded scenario_config)
          (Some "2023-11-14T21:11:15") plain_hosts true true
          1700000000000000%Z [].

Definition active_unprivileged_world : World :=
  mkWorld "/opt/siteblocker/config.json" (ConfigLoaded scenario_config)
          (Some "2023-11-14T21:11:15") (hosts_file active_world) true false
          1700000000000000%Z [].


(** A configuration one of whose domains is the end marker text. *)
Definition marker_config : Config :=
  mkConfig (Some "0.0.0.0") (Some ["# SiteBlocker END"; "b.com"]).

(** * Facts about text *)

Section TextFacts.

Lemma append_empty_r (s : string) : s ++ "" = s.
Proof. induction s as [|c s IH]; simpl; [reflexivity | now rewrite IH]. Qed.

Lemma append_assoc (a b c : string) : (a ++ b) ++ c = a ++ b ++ c.
Proof. induction a as [|x a IH]; simpl; [reflexivity | now rewrite IH]. Qed.

Lemma prefix_iff (n h : string) :
  String.prefix n h = true <-> exists b, h = n ++ b.
Proof.
  revert n. induction h as [|c h IH]; intros [|d n]; simpl.
  - split; [exists ""; reflexivity | reflexivity].
  - split; [discriminate | intros [b Hb]; discriminate].
  - split; [exists (String c h); reflexivity | reflexivity].
  - destruct (ascii_dec d c) as [->|Hne].
    + rewrite IH. split; intros [b Hb]; exists b.
      * now rewrite Hb.
      * now injection Hb.
    + split; [discriminate | intros [b Hb]; injection Hb; congruence].
Qed.

Lemma contains_nil (n : string) : contains n "" = String.prefix n "".
Proof. unfold contains. apply orb_false_r. Qed.

Lemma contains_cons (n : string) (c : ascii) (h : string) :
  contains n (String c h) = String.prefix n (String c h) || contains n h.
Proof. reflexivity. Qed.

Lemma contains_iff (n h : string) :
  contains n h = true <-> exists a b, h = a ++ n ++ b.
Proof.
  induction h as [|c h IH].
  - rewrite contains_nil, prefix_iff. split.
    + intros [b Hb]. exists "", b. exact Hb.
    + intros [[|x a] [b Hb]]; [exists b; exact Hb | discriminate].
  - rewrite contains_cons, orb_true_iff, prefix_iff, IH. split.
    + intros [[b Hb] | [a [b Hb]]].
      * exists "", b. exact Hb.
      * exists (String c a), b. simpl. now rewrite Hb.
    + intros [[|x a] [b Hb]].
      * left. exists b. exact Hb.
      * right. simpl in Hb. injection Hb as _ Hb. exists a, b. exact Hb.
Qed.

(** A needle without LF found in [h ++ NL] lies in [h]. *)
Lemma prefix_before_newline (n h : string) :
  has_char LF n = false ->
  String.prefix n (h ++ NL) = true -> String.prefix n h = true.
Proof.
  revert n. induction h as [|c h IH]; intros [|d n] Hn; simpl; try reflexivity.
  - simpl in Hn. apply orb_false_iff in Hn as [Hd _].
    destruct (ascii_dec d LF) as [->|_]; [|discriminate].
    now rewrite Ascii.eqb_refl in Hd.
  - simpl in Hn. apply orb_false_iff in Hn as [_ Hn].
    destruct (ascii_dec d c); [apply IH; exact Hn | discriminate].
Qed.

Lemma contains_before_newline (n h : string) :
  has_char LF n = false ->
  contains n (h ++ NL) = true -> contains n h = true.
Proof.
  intros Hn. induction h as [|c h IH].
  - change ("" ++ NL) with (String LF ""). rewrite contains_cons, !contains_nil.
    intros [H | H]%orb_true_iff.
    + apply (prefix_before_newline n "" Hn H).
    + exact H.
  - change (String c h ++ NL) with (String c (h ++ NL)).
    rewrite !contains_cons.
    intros [H | H]%orb_true_iff; apply orb_true_iff.
    + left. apply (prefix_before_newline n (String c h) Hn H).
    + right. apply IH, H.
Qed.

Lemma contains_app_l (n a b : string) :
  contains n a = true -> contains n (a ++ b) = true.
Proof.
  rewrite !contains_iff. intros [x [y ->]]. exists x, (y ++ b).
  now rewrite !append_assoc.
Qed.

Lemma contains_app_r (n a b : string) :
  contains n b = true -> contains n (a ++ b) = true.
Proof.
  rewrite !contains_iff. intros [x [y ->]]. exists (a ++ x), y.
  now rewrite !append_assoc.
Qed.

Lemma not_contains_terminated (n h : string) :
  has_char LF n = false ->
  contains n h = false -> contains n (h ++ NL) = false.
Proof.
  intros Hn Hh. destruct (contains n (h ++ NL)) eqn:E; [|reflexivity].
  apply (contains_before_newline n h Hn) in E. congruence.
Qed.

(** *** Reading and writing lines *)

Lemma writelines_cons (l : string) (ls : list string) :
  writelines (l :: ls) = l ++ writelines ls.
Proof. reflexivity. Qed.

Lemma writelines_app (a b : list string) :
  writelines (a ++ b)%list = writelines a ++ writelines b.
Proof.
  induction a as [|l a IH]; [reflexivity|].
  change ((l :: a) ++ b)%list with (l :: (a ++ b))%list.
  now rewrite !writelines_cons, IH, append_assoc.
Qed.

Lemma readlines_LF (rest : string) :
  readlines (String LF rest) = NL :: readlines rest.
Proof. reflexivity. Qed.

Lemma readlines_other (c : ascii) (rest : string) :
  Ascii.eqb c LF = false ->
  readlines (String c rest) =
    match readlines rest with
    | [] => [String c ""]
    | l :: ls => String c l :: ls
    end.
Proof. intros H. simpl. now rewrite H. Qed.

Lemma readlines_empty_iff (s : string) : readlines s = [] <-> s = "".
Proof.
  split; [|now intros ->].
  destruct s as [|c s]; [reflexivity|].
  destruct (Ascii.eqb c LF) eqn:E.
  - apply Ascii.eqb_eq in E as ->. now rewrite readlines_LF.
  - rewrite (readlines_other _ _ E). now destruct (readlines s).
Qed.

(** Writing back the lines read gives the text read. *)
Lemma writelines_readlines (s : string) : writelines (readlines s) = s.
Proof.
  induction s as [|c s IH]; [reflexivity|].
  destruct (Ascii.eqb c LF) eqn:E.
  - apply Ascii.eqb_eq in E as ->.
    now rewrite readlines_LF, writelines_cons, IH.
  - rewrite (readlines_other _ _ E).
    destruct (readlines s) as [|l ls] eqn:R.
    + apply readlines_empty_iff in R as ->. reflexivity.
    + rewrite writelines_cons in *. simpl. now rewrite IH.
Qed.

Lemma readlines_file_lines (s : string) : file_lines (readlines s).
Proof.
  induction s as [|c s IH]; [constructor|].
  destruct (Ascii.eqb c LF) eqn:E.
  - apply Ascii.eqb_eq in E as ->. rewrite readlines_LF.
    apply (file_lines_cons "" _ eq_refl IH).
  - rewrite (readlines_other _ _ E).
    inversion IH as [Hnil | p Hp Hlf Hrd | body rest Hb Hrest Hrd].
    + apply file_lines_last; [discriminate | simpl; now rewrite E].
    + apply file_lines_last; [discriminate | simpl; now rewrite E, Hlf].
    + apply (file_lines_cons (String c body)); [simpl; now rewrite E, Hb | exact Hrest].
Qed.

(** A line without LF, then LF, then a text: the first line read is that
    line. *)
Lemma readlines_line (body t : string) :
  has_char LF body = false ->
  readlines (body ++ NL ++ t) = (body ++ NL) :: readlines t.
Proof.
  induction body as [|c body IH]; intros Hb; [reflexivity|].
  simpl in Hb. apply orb_false_iff in Hb as [Hc Hb].
  change (String c body ++ NL ++ t) with (String c (body ++ NL ++ t)).
  now rewrite (readlines_other _ _ Hc), (IH Hb).
Qed.

Lemma readlines_partial (p : string) :
  p <> "" -> has_char LF p = false -> readlines p = [p].
Proof.
  induction p as [|c p IH]; intros Hne Hp; [congruence|].
  simpl in Hp. apply orb_false_iff in Hp as [Hc Hp].
  rewrite (readlines_other _ _ Hc).
  destruct p as [|d p]; [reflexivity|].
  now rewrite IH.
Qed.

(** Reading back the lines written gives the lines written. *)
Lemma readlines_writelines (K : list string) :
  file_lines K -> readlines (writelines K) = K.
Proof.
  induction 1 as [| p Hne Hp | body rest Hb Hrest IH].
  - reflexivity.
  - rewrite writelines_cons. simpl writelines. rewrite append_empty_r.
    now apply readlines_partial.
  - rewrite writelines_cons, append_assoc, (readlines_line _ _ Hb), IH.
    reflexivity.
Qed.

(** A text that ends a line can be read apart from what follows it. *)
Lemma readlines_app_terminated (s t : string) :
  readlines (s ++ NL ++ t) = (readlines (s ++ NL) ++ readlines t)%list.
Proof.
  induction s as [|c s IH]; [reflexivity|].
  change (String c s ++ NL ++ t) with (String c (s ++ NL ++ t)).
  change (String c s ++ NL) with (String c (s ++ NL)).
  destruct (Ascii.eqb c LF) eqn:E.
  - apply Ascii.eqb_eq in E as ->. now rewrite !readlines_LF, IH.
  - rewrite !(readlines_other _ _ E), IH.
    destruct (readlines (s ++ NL)) as [|l ls] eqn:R; [|reflexivity].
    apply readlines_empty_iff in R. destruct s; discriminate.
Qed.

(** Every line written is a piece of the text; so is every line read. *)
Lemma writelines_infix (xs : list string) (l : string) :
  In l xs -> exists a b, writelines xs = a ++ l ++ b.
Proof.
  induction xs as [|x xs IH]; intros Hin; [destruct Hin|].
  destruct Hin as [-> | Hin].
  - exists "", (writelines xs). reflexivity.
  - destruct (IH Hin) as [a [b Hab]]. exists (x ++ a), b.
    now rewrite writelines_cons, Hab, append_assoc.
Qed.

Lemma readlines_infix (s l : string) :
  In l (readlines s) -> exists a b, s = a ++ l ++ b.
Proof.
  intros Hin. apply writelines_infix in Hin.
  now rewrite writelines_readlines in Hin.
Qed.

Lemma readlines_not_contains (n s : string) :
  contains n s = false ->
  Forall (fun l => contains n l = false) (readlines s).
Proof.
  intros Hs. apply Forall_forall. intros l Hin.
  destruct (contains n l) eqn:E; [|reflexivity].
  destruct (readlines_infix s l Hin) as [a [b ->]].
  rewrite (contains_app_r n a _ (contains_app_l n l b E)) in Hs. discriminate.
Qed.

End TextFacts.

(** * Facts about the removal pass *)

Section RemovalFacts.

(** The loop with its accumulator computes the scan. *)
Lemma remove_loop_scan (lines acc : list string) (inside : bool) :
  remove_loop (acc, inside) lines =
    ((acc ++ drop_blocks inside lines)%list, inside_after inside lines).
Proof.
  revert acc inside. induction lines as [|line rest IH]; intros acc inside.
  - simpl. now rewrite app_nil_r.
  - unfold remove_loop in *. cbn [fold_left remove_step drop_blocks inside_after].
    destruct (contains MARKER_START line); [apply IH|].
    destruct (contains MARKER_END line); [apply IH|].
    destruct inside; cbn [negb]; rewrite IH; [reflexivity|].
    unfold list_append. now rewrite <- app_assoc.
Qed.

Lemma remove_blocker_entries_scan (lines : list string) :
  remove_blocker_entries lines = drop_blocks false lines.
Proof. unfold remove_blocker_entries. now rewrite remove_loop_scan. Qed.

Lemma drop_blocks_app (a b : list string) (inside : bool) :
  drop_blocks inside (a ++ b) =
    (drop_blocks inside a ++ drop_blocks (inside_after inside a) b)%list.
Proof.
  revert inside. induction a as [|line a IH]; intros inside; [reflexivity|].
  cbn [app drop_blocks inside_after].
  destruct (contains MARKER_START line); [apply IH|].
  destruct (contains MARKER_END line); [apply IH|].
  destruct inside; rewrite IH; reflexivity.
Qed.

(** No line that is kept holds a marker. *)
Lemma drop_blocks_marker_free (lines : list string) (inside : bool) :
  Forall marker_free (drop_blocks inside lines).
Proof.
  revert inside. induction lines as [|line rest IH]; intros inside; [constructor|].
  cbn [drop_blocks].
  destruct (contains MARKER_START line) eqn:Es; [apply IH|].
  destruct (contains MARKER_END line) eqn:Ee; [apply IH|].
  destruct inside; [apply IH|].
  constructor; [split; assumption | apply IH].
Qed.

(** Outside a block, lines without markers are all kept. *)
Lemma drop_blocks_clean (lines : list string) :
  Forall marker_free lines ->
  drop_blocks false lines = lines /\ inside_after false lines = false.
Proof.
  induction 1 as [|line rest [Hs He] _ [IHd IHi]]; [split; reflexivity|].
  cbn [drop_blocks inside_after]. rewrite Hs, He, IHd, IHi. split; reflexivity.
Qed.

(** Inside a block, everything is dropped as long as no line holds the end
    marker. *)
Lemma drop_blocks_unterminated (lines : list string) :
  Forall (fun l => contains MARKER_END l = false) lines ->
  drop_blocks true lines = [] /\ inside_after true lines = true.
Proof.
  induction 1 as [|line rest He _ [IHd IHi]]; [split; reflexivity|].
  cbn [drop_blocks inside_after]. rewrite He, IHd, IHi.
  destruct (contains MARKER_START line); split; reflexivity.
Qed.

(** What is kept from the lines of a file are the lines of a file. *)
Lemma file_lines_tail (l : string) (rest : list string) :
  file_lines (l :: rest) -> file_lines rest.
Proof. inversion 1; [constructor | assumption]. Qed.

Lemma drop_blocks_file_lines (lines : list string) (inside : bool) :
  file_lines lines -> file_lines (drop_blocks inside lines).
Proof.
  revert inside. induction lines as [|line rest IH]; intros inside Hf; [constructor|].
  pose proof (file_lines_tail _ _ Hf) as Hrest.
  cbn [drop_blocks].
  destruct (contains MARKER_START line); [now apply IH|].
  destruct (contains MARKER_END line); [now apply IH|].
  destruct inside; [now apply IH|].
  inversion Hf as [| p Hne Hp Heq | body rest' Hb Hr Heq]; subst.
  - now apply file_lines_last.
  - apply file_lines_cons; [assumption | now apply IH].
Qed.

Lemma count_containing_zero (m : string) (lines : list string) :
  Forall (fun l => contains m l = false) lines -> count_containing m lines = 0%nat.
Proof.
  unfold count_containing.
  induction 1 as [|l ls Hl _ IH]; [reflexivity|]. simpl. now rewrite Hl.
Qed.

Lemma count_containing_app (m : string) (a b : list string) :
  count_containing m (a ++ b) =
    (count_containing m a + count_containing m b)%nat.
Proof. unfold count_containing. now rewrite filter_app, length_app. Qed.

Lemma marker_free_start (lines : list string) :
  Forall marker_free lines ->
  Forall (fun l => contains MARKER_START l = false) lines.
Proof. apply Forall_impl. now intros l [H _]. Qed.

Lemma marker_free_end (lines : list string) :
  Forall marker_free lines ->
  Forall (fun l => contains MARKER_END l = false) lines.
Proof. apply Forall_impl. now intros l [_ H]. Qed.

(** The two scans agree on the files where the marker texts occur only as
    whole lines. *)
Lemma drop_blocks_exact_agrees (lines : list string) (inside : bool) :
  Forall (fun l => contains MARKER_START l = is_exactly MARKER_START l /\
                   contains MARKER_END l = is_exactly MARKER_END l) lines ->
  drop_blocks inside lines = drop_blocks_exact inside lines.
Proof.
  intros H. revert inside.
  induction H as [|line rest [Hs He] _ IH]; intros inside; [reflexivity|].
  cbn [drop_blocks drop_blocks_exact]. rewrite Hs, He.
  destruct (is_exactly MARKER_START line); [apply IH|].
  destruct (is_exactly MARKER_END line); [apply IH|].
  destruct inside; now rewrite IH.
Qed.

End RemovalFacts.

(** * The block-removal pass *)

(** C3, as amended: [remove_blocker_entries] is the linear scan with an
    "inside managed block" flag in which a line counts as a start (resp. end)
    marker line when it holds the marker text, the start marker being looked
    for first: such a line sets the flag (resp. clears it) and is dropped,
    lines are dropped while the flag is set, every other line is copied
    unchanged; no line of the result holds a marker, however many blocks the
    input had. *)
Theorem remove_blocker_entries_is_scan (lines : list string) :
  remove_blocker_entries lines = drop_blocks false lines /\
  Forall marker_free (remove_blocker_entries lines) /\
  count_containing MARKER_START (remove_blocker_entries lines) = 0%nat /\
  count_containing MARKER_END (remove_blocker_entries lines) = 0%nat.
Proof.
  rewrite remove_blocker_entries_scan.
  pose proof (drop_blocks_marker_free lines false) as Hfree.
  split; [reflexivity | split; [exact Hfree | split]].
  - apply count_containing_zero, marker_free_start, Hfree.
  - apply count_containing_zero, marker_free_end, Hfree.
Qed.

(** C3, as stated, fails: the first line of [remark_lines] is not the start
    marker text, so a scan on exact marker lines copies both lines; the code
    takes it for a start marker and returns nothing. *)
Lemma remove_blocker_entries_not_exact :
  drop_blocks_exact false remark_lines = remark_lines /\
  remove_blocker_entries remark_lines = [] /\
  remove_blocker_entries remark_lines <> drop_blocks_exact false remark_lines.
Proof.
  assert (E : drop_blocks_exact false remark_lines = remark_lines)
    by (vm_compute; reflexivity).
  assert (R : remove_blocker_entries remark_lines = []) by (vm_compute; reflexivity).
  split; [exact E | split; [exact R |]].
  rewrite E, R. discriminate.
Qed.

(** C10: when a line holds the start marker and no line after it holds the
    end marker, the pass drops that line and all the lines after it: the
    result is what the pass gives on the lines before. *)
Theorem unterminated_block_drops_rest (before after : list string) (line : string) :
  contains MARKER_START line = true ->
  Forall (fun l => contains MARKER_END l = false) after ->
  remove_blocker_entries (before ++ line :: after) =
    remove_blocker_entries before.
Proof.
  intros Hstart Hafter.
  rewrite !remove_blocker_entries_scan, drop_blocks_app.
  cbn [drop_blocks]. rewrite Hstart.
  destruct (drop_blocks_unterminated after Hafter) as [-> _].
  apply app_nil_r.
Qed.

Lemma unterminated_block_drops_rest_witness :
  remove_blocker_entries (sample_before ++ (MARKER_START ++ NL) :: sample_after) =
  remove_blocker_entries sample_before.
Proof.
  apply (unterminated_block_drops_rest sample_before sample_after
           (MARKER_START ++ NL)).
  - vm_compute. reflexivity.
  - repeat constructor.
Defined.

(** * Facts about the session *)

Lemma fold_list_append {A B : Type} (f : B -> A) (l : list B) (init : list A) :
  fold_left (fun acc x => list_append acc (f x)) l init = (init ++ map f l)%list.
Proof.
  revert init. induction l as [|x l IH]; intros init; simpl.
  - now rewrite app_nil_r.
  - rewrite IH. unfold list_append. now rewrite <- app_assoc.
Qed.

(** The list [add_blocker_entries] returns. *)
Lemma add_blocker_entries_eq (config : Config) (lines : list string) :
  add_blocker_entries config lines =
    (remove_blocker_entries lines ++
     [(NL ++ MARKER_START ++ NL)%string] ++
     map (entry_line (get_redirect_ip config)) (get_blocklist config) ++
     [(MARKER_END ++ NL)%string])%list.
Proof.
  unfold add_blocker_entries. rewrite fold_list_append.
  unfold list_append. now rewrite <- !app_assoc.
Qed.

(** The text written from it. *)
Lemma writelines_add_blocker_entries (config : Config) (lines : list string) :
  writelines (add_blocker_entries config lines) =
    writelines (remove_blocker_entries lines) ++ NL ++ MARKER_START ++ NL ++
    writelines (map (entry_line (get_redirect_ip config)) (get_blocklist config)) ++
    MARKER_END ++ NL.
Proof.
  rewrite add_blocker_entries_eq, !writelines_app.
  cbn [writelines fold_right]. now rewrite !append_empty_r, !append_assoc.
Qed.

Lemma entry_line_body (redirect_ip domain : string) :
  entry_line redirect_ip domain = (redirect_ip ++ " " ++ domain) ++ NL.
Proof. unfold entry_line. now rewrite !append_assoc. Qed.

(** Entries without LF inside are read back one line each. *)
Lemma readlines_entries (redirect_ip : string) (domains : list string) (t : string) :
  Forall (fun d => has_char LF (redirect_ip ++ " " ++ d) = false) domains ->
  readlines (writelines (map (entry_line redirect_ip) domains) ++ t) =
    (map (entry_line redirect_ip) domains ++ readlines t)%list.
Proof.
  induction 1 as [|d ds Hd _ IH]; [reflexivity|].
  cbn [map]. rewrite writelines_cons, entry_line_body.
  set (body := redirect_ip ++ " " ++ d) in *.
  rewrite !append_assoc, (readlines_line _ _ Hd), IH. reflexivity.
Qed.

(** Entries that do not hold the end marker are read back as lines that do
    not hold it, whatever else they hold. *)
Lemma readlines_entries_no_end (redirect_ip : string) (domains : list string)
      (t : string) :
  Forall (fun d => contains MARKER_END (entry_line redirect_ip d) = false) domains ->
  exists body,
    readlines (writelines (map (entry_line redirect_ip) domains) ++ t) =
      (body ++ readlines t)%list /\
    Forall (fun l => contains MARKER_END l = false) body.
Proof.
  induction 1 as [|d ds Hd _ [body [Hread Hbody]]].
  - exists []. split; [reflexivity | constructor].
  - rewrite (entry_line_body redirect_ip d) in Hd.
    exists (readlines ((redirect_ip ++ " " ++ d) ++ NL) ++ body)%list. split.
    + cbn [map]. rewrite writelines_cons, (entry_line_body redirect_ip d).
      set (text := redirect_ip ++ " " ++ d) in *.
      rewrite !append_assoc, readlines_app_terminated, Hread.
      now rewrite app_assoc.
    + apply Forall_app. split; [|exact Hbody].
      apply readlines_not_contains, Hd.
Qed.

(** The lines read from a clean text with a separator after it are clean. *)
Lemma separator_lines_marker_free (K : list string) :
  file_lines K -> Forall marker_free K ->
  Forall marker_free (readlines (writelines K ++ NL)).
Proof.
  assert (Hs : has_char LF MARKER_START = false) by reflexivity.
  assert (He : has_char LF MARKER_END = false) by reflexivity.
  induction 1 as [| p Hne Hp | body rest Hb Hrest IH]; intros Hfree.
  - repeat constructor.
  - inversion Hfree as [|? ? [Hps Hpe] _]; subst.
    rewrite writelines_cons. cbn [writelines fold_right].
    rewrite append_empty_r.
    rewrite <- (append_empty_r (p ++ NL)), append_assoc, (readlines_line _ _ Hp).
    repeat constructor; now apply not_contains_terminated.
  - inversion Hfree as [|? ? Hhead Htail]; subst.
    rewrite writelines_cons, !append_assoc, (readlines_line _ _ Hb).
    constructor; [exact Hhead | apply IH, Htail].
Qed.

Section SessionFacts.

Variable fromisoformat : string -> string + datetime.
Variable isoformat : datetime -> string.

Ltac run :=
  unfold activate, deactivate, status, run_interactive, signal_handler,
    timer_round, is_active, get_active_duration, read_hosts, write_hosts,
    write_lock, unlink_lock, load_config, print, print_noend, sleep_1,
    sys_exit, bind, ret, set_stdout, set_lock_file, set_hosts_file, set_clock;
  cbn [lock_file hosts_file hosts_readable hosts_writable config_file clock
       stdout config_path negb fst snd].

Lemma get_active_duration_present (w : World) (content : string) :
  lock_file w = Some content ->
  exists d out,
    get_active_duration fromisoformat w = (Return d, set_stdout out w) /\
    (forall t, fromisoformat (strip content) = inr t -> d = (clock w - t)%Z).
Proof.
  intros Hlock. unfold get_active_duration. rewrite Hlock.
  destruct (fromisoformat (strip content)) as [e|t].
  - eexists; eexists. split; [reflexivity | discriminate].
  - exists (clock w - t)%Z, (stdout w). split.
    + now destruct w.
    + now intros t' [= <-].
Qed.

Lemma activate_fresh (config : Config) (w : World) :
  lock_file w = None -> hosts_readable w = true -> hosts_writable w = true ->
  exists w',
    activate fromisoformat isoformat config w = (Return tt, w') /\
    hosts_file w' =
      writelines (add_blocker_entries config (readlines (hosts_file w))) /\
    lock_file w' = Some (isoformat (clock w)) /\
    hosts_readable w' = true /\ hosts_writable w' = true /\
    config_file w' = config_file w.
Proof.
  destruct w as [cp cf lk hf hr hw ck out]. cbn. intros -> -> ->.
  eexists. split; [run; reflexivity|]. cbn. repeat split.
Qed.

Lemma deactivate_active (w : World) (content : string) :
  lock_file w = Some content ->
  hosts_readable w = true -> hosts_writable w = true ->
  exists w',
    deactivate fromisoformat w = (Return tt, w') /\
    hosts_file w' = writelines (remove_blocker_entries (readlines (hosts_file w))) /\
    lock_file w' = None.
Proof.
  destruct w as [cp cf lk hf hr hw ck out]. cbn. intros -> -> ->.
  run. destruct (fromisoformat (strip content)) as [e|t];
    eexists; (split; [reflexivity|]); cbn; split; reflexivity.
Qed.

Lemma deactivate_denied (w : World) (content : string) :
  lock_file w = Some content ->
  hosts_readable w && hosts_writable w = false ->
  exists w',
    deactivate fromisoformat w = (Exit 1%Z, w') /\
    hosts_file w' = hosts_file w /\ lock_file w' = lock_file w.
Proof.
  destruct w as [cp cf lk hf hr hw ck out]. cbn. intros -> Hd.
  run. destruct (fromisoformat (strip content)) as [e|t];
    destruct hr, hw; try discriminate Hd;
    eexists; (split; [reflexivity|]); cbn; split; reflexivity.
Qed.

Lemma timer_round_same_files (w : World) :
  exists w', timer_round fromisoformat w = (Return tt, w') /\ same_files w w'.
Proof.
  destruct w as [cp cf lk hf hr hw ck out]. run.
  destruct lk as [content|].
  - destruct (fromisoformat (strip content)) as [e|t];
      eexists; (split; [reflexivity|]); repeat split.
  - eexists; (split; [reflexivity|]); repeat split.
Qed.

End SessionFacts.

(** * Activation *)

Section Activation.

Variable fromisoformat : string -> string + datetime.
Variable isoformat : datetime -> string.

Lemma kept_lines_file_lines (text : string) :
  file_lines (remove_blocker_entries (readlines text)).
Proof.
  rewrite remove_blocker_entries_scan.
  apply drop_blocks_file_lines, readlines_file_lines.
Qed.

Lemma kept_lines_marker_free (lines : list string) :
  Forall marker_free (remove_blocker_entries lines).
Proof. rewrite remove_blocker_entries_scan. apply drop_blocks_marker_free. Qed.

Lemma plain_entries_split (redirect_ip : string) (domains : list string) :
  Forall (fun d => plain_entry redirect_ip d = true) domains ->
  Forall (fun d => has_char LF (redirect_ip ++ " " ++ d) = false) domains /\
  Forall marker_free (map (entry_line redirect_ip) domains).
Proof.
  induction 1 as [|d ds Hd _ [IH1 IH2]]; [split; constructor|].
  unfold plain_entry in Hd.
  apply andb_true_iff in Hd as [[H1 H2]%andb_true_iff H3].
  apply negb_true_iff in H1, H2, H3.
  split; constructor; try assumption. split; assumption.
Qed.

(** The lines of the hosts file once the block is written after the kept
    text, for entries that are plain. *)
Lemma readlines_written_block (kept : list string) (redirect_ip : string)
      (domains : list string) :
  Forall (fun d => has_char LF (redirect_ip ++ " " ++ d) = false) domains ->
  readlines (writelines kept ++ NL ++ MARKER_START ++ NL ++
             writelines (map (entry_line redirect_ip) domains) ++
             MARKER_END ++ NL) =
    (readlines (writelines kept ++ NL) ++
     [(MARKER_START ++ NL)%string] ++
     map (entry_line redirect_ip) domains ++
     [(MARKER_END ++ NL)%string])%list.
Proof.
  intros Hplain.
  rewrite readlines_app_terminated.
  rewrite (readlines_line MARKER_START _ eq_refl).
  rewrite (readlines_entries _ _ _ Hplain).
  reflexivity.
Qed.

(** When the text kept is empty or ends a line, the separator is read as a
    blank line of its own. *)
Lemma readlines_separator_blank (kept : list string) :
  file_lines kept ->
  writelines kept = "" \/ (exists t, writelines kept = t ++ NL) ->
  readlines (writelines kept ++ NL) = (kept ++ [NL])%list.
Proof.
  intros Hfile Hend.
  pose proof (readlines_writelines kept Hfile) as Hread.
  destruct Hend as [Hempty | [t Ht]].
  - rewrite Hempty in *. cbn in Hread. now rewrite <- Hread.
  - rewrite Ht in *. rewrite append_assoc, readlines_app_terminated, Hread.
    reflexivity.
Qed.

(** C1, as amended: activation of an inactive session, with the hosts file
    readable and writable, leaves in the hosts file the text kept by the
    removal pass (which holds no marker), then LF, the start marker line, one
    line "R D[i]" per configured domain in the configured order, and the end
    marker line.  When the generated lines are plain (no LF and no marker
    text in them), these are the lines of the file, exactly one holds the
    start marker and exactly one the end marker; and when moreover the text
    kept is empty or ends with LF, the LF written before the block is a
    blank line of its own.  In the scenario of the specification the file
    becomes the expected text. *)
Theorem activate_writes_one_block :
  (forall (config : Config) (w : World),
     lock_file w = None -> hosts_readable w = true -> hosts_writable w = true ->
     let R := get_redirect_ip config in
     let D := get_blocklist config in
     let kept := remove_blocker_entries (readlines (hosts_file w)) in
     exists w',
       activate fromisoformat isoformat config w = (Return tt, w') /\
       hosts_file w' =
         writelines kept ++ NL ++ MARKER_START ++ NL ++
         writelines (map (entry_line R) D) ++ MARKER_END ++ NL /\
       Forall marker_free kept /\
       List.length (map (entry_line R) D) = List.length D /\
       (forall i d, nth_error D i = Some d ->
          nth_error (map (entry_line R) D) i = Some (R ++ " " ++ d ++ NL)) /\
       (Forall (fun d => plain_entry R d = true) D ->
        exists before,
          readlines (hosts_file w') =
            (before ++ [(MARKER_START ++ NL)%string] ++ map (entry_line R) D ++
             [(MARKER_END ++ NL)%string])%list /\
          writelines before = writelines kept ++ NL /\
          Forall marker_free before /\
          count_containing MARKER_START (readlines (hosts_file w')) = 1%nat /\
          count_containing MARKER_END (readlines (hosts_file w')) = 1%nat /\
          (writelines kept = "" \/ (exists t, writelines kept = t ++ NL) ->
           before = (kept ++ [NL])%list))) /\
  hosts_file (snd (activate fromisoformat isoformat scenario_config scenario_world)) =
    NL ++ "# SiteBlocker START" ++ NL ++ "0.0.0.0 a.com" ++ NL ++
    "0.0.0.0 b.com" ++ NL ++ "# SiteBlocker END" ++ NL.
Proof.
  split; [|reflexivity].
  intros config w Hlock Hr Hw R D kept.
  destruct (activate_fresh fromisoformat isoformat config w Hlock Hr Hw)
    as [w' [Hrun [Hhosts _]]].
  exists w'. split; [exact Hrun|].
  rewrite Hhosts, writelines_add_blocker_entries. fold R D kept.
  split; [reflexivity|].
  split; [apply kept_lines_marker_free|].
  split; [apply length_map|].
  split; [intros i d Hd; now rewrite nth_error_map, Hd|].
  intros Hplain. apply plain_entries_split in Hplain as [Hlf Hfree].
  pose proof (separator_lines_marker_free kept
                (kept_lines_file_lines _) (kept_lines_marker_free _)) as Hbefore.
  exists (readlines (writelines kept ++ NL)).
  rewrite (readlines_written_block kept R D Hlf).
  split; [reflexivity|].
  split; [apply writelines_readlines|].
  split; [exact Hbefore|].
  rewrite !count_containing_app.
  rewrite (count_containing_zero MARKER_START _ (marker_free_start _ Hbefore)).
  rewrite (count_containing_zero MARKER_START _ (marker_free_start _ Hfree)).
  rewrite (count_containing_zero MARKER_END _ (marker_free_end _ Hbefore)).
  rewrite (count_containing_zero MARKER_END _ (marker_free_end _ Hfree)).
  split; [reflexivity|]. split; [reflexivity|].
  apply readlines_separator_blank, kept_lines_file_lines.
Qed.

End Activation.

Lemma activate_writes_one_block_witness :
  exists w',
    activate SampleDatetime.fromisoformat SampleDatetime.isoformat
             scenario_config scenario_world = (Return tt, w') /\
    hosts_file w' =
      NL ++ "# SiteBlocker START" ++ NL ++ "0.0.0.0 a.com" ++ NL ++
      "0.0.0.0 b.com" ++ NL ++ "# SiteBlocker END" ++ NL /\
    count_containing MARKER_START (readlines (hosts_file w')) = 1%nat /\
    count_containing MARKER_END (readlines (hosts_file w')) = 1%nat.
Proof.
  destruct (proj1 (activate_writes_one_block
                     SampleDatetime.fromisoformat SampleDatetime.isoformat)
                  scenario_config scenario_world eq_refl eq_refl eq_refl)
    as [w' [Hrun [Hhosts [_ [_ [_ Hlines]]]]]].
  destruct Hlines as [before [_ [_ [_ [Hs [He _]]]]]].
  { repeat constructor. }
  exists w'. split; [exact Hrun|]. split; [exact Hhosts|].
  split; [exact Hs | exact He].
Defined.

(** C1, as stated, fails.  With the domain list ["# SiteBlocker END"; "b.com"]
    and an empty hosts file, the file after activation has two lines with
    the end marker, and the removal pass finds the line of "b.com" outside
    the block.  With the scenario's configuration and a hosts file whose last
    line has no LF, the file after activation has no blank line: the LF
    written before the block ends that last line. *)
Lemma activate_block_not_as_claimed :
  (let w' := snd (activate SampleDatetime.fromisoformat SampleDatetime.isoformat
                           marker_config scenario_world) in
   count_containing MARKER_END (readlines (hosts_file w')) = 2%nat /\
   remove_blocker_entries (readlines (hosts_file w')) =
     [NL; ("0.0.0.0 b.com" ++ NL)%string]) /\
  (let w' := snd (activate SampleDatetime.fromisoformat SampleDatetime.isoformat
                           scenario_config plain_world) in
   ~ In NL (readlines (hosts_file w'))).
Proof.
  split.
  - vm_compute. split; reflexivity.
  - vm_compute. intros H.
    repeat (destruct H as [H | H]; [discriminate H|]). exact H.
Qed.

(** * Activation followed by deactivation *)

Section Cleanup.

Variable fromisoformat : string -> string + datetime.
Variable isoformat : datetime -> string.

(** The removal pass on a file made of clean lines, a separator and one
    written block gives back the clean lines and the separator. *)
Lemma remove_written_block (kept : list string) (redirect_ip : string)
      (domains : list string) :
  file_lines kept -> Forall marker_free kept ->
  Forall (fun d => contains MARKER_END (entry_line redirect_ip d) = false) domains ->
  remove_blocker_entries
    (readlines (writelines kept ++ NL ++ MARKER_START ++ NL ++
                writelines (map (entry_line redirect_ip) domains) ++
                MARKER_END ++ NL)) =
  readlines (writelines kept ++ NL).
Proof.
  intros Hfile Hfree Hend.
  pose proof (separator_lines_marker_free kept Hfile Hfree) as Hbefore.
  destruct (readlines_entries_no_end redirect_ip domains (MARKER_END ++ NL) Hend)
    as [body [Hread Hbody]].
  rewrite readlines_app_terminated, (readlines_line MARKER_START _ eq_refl), Hread.
  rewrite remove_blocker_entries_scan, drop_blocks_app.
  destruct (drop_blocks_clean _ Hbefore) as [-> ->].
  change (drop_blocks false ((MARKER_START ++ NL)%string :: ?l))
    with (drop_blocks true l).
  rewrite drop_blocks_app.
  destruct (drop_blocks_unterminated _ Hbody) as [-> ->].
  apply app_nil_r.
Qed.

(** C2, as amended: from an inactive session with the hosts file readable
    and writable, and a configuration none of whose generated lines holds the
    end marker text, activate then deactivate leave in the hosts file the
    text kept by the removal pass from the prior content, followed by one LF
    (the separator), with no marker line left, and remove the lock file.  In
    the scenario of the specification the hosts file ends as the single blank
    line, and the lock file is removed. *)
Theorem activate_deactivate_cleanup :
  (forall (config : Config) (w : World),
     lock_file w = None -> hosts_readable w = true -> hosts_writable w = true ->
     Forall (fun d => contains MARKER_END
                        (entry_line (get_redirect_ip config) d) = false)
            (get_blocklist config) ->
     exists w1 w2,
       activate fromisoformat isoformat config w = (Return tt, w1) /\
       deactivate fromisoformat w1 = (Return tt, w2) /\
       hosts_file w2 =
         writelines (remove_blocker_entries (readlines (hosts_file w))) ++ NL /\
       Forall marker_free (readlines (hosts_file w2)) /\
       lock_file w2 = None) /\
  (let w1 := snd (activate fromisoformat isoformat scenario_config scenario_world) in
   let w2 := snd (deactivate fromisoformat w1) in
   hosts_file w2 = NL /\ lock_file w2 = None).
Proof.
  split.
  - intros config w Hlock Hr Hw Hend.
    destruct (activate_fresh fromisoformat isoformat config w Hlock Hr Hw)
      as [w1 [Hrun1 [Hhosts1 [Hlock1 [Hr1 [Hw1 _]]]]]].
    destruct (deactivate_active fromisoformat w1 _ Hlock1 Hr1 Hw1)
      as [w2 [Hrun2 [Hhosts2 Hlock2]]].
    exists w1, w2. split; [exact Hrun1|]. split; [exact Hrun2|].
    rewrite Hhosts2, Hhosts1, writelines_add_blocker_entries.
    rewrite (remove_written_block _ _ _ (kept_lines_file_lines _)
               (kept_lines_marker_free _) Hend).
    rewrite writelines_readlines.
    split; [reflexivity|]. split; [|exact Hlock2].
    apply separator_lines_marker_free;
      [apply kept_lines_file_lines | apply kept_lines_marker_free].
  - cbv [scenario_world scenario_config activate deactivate bind is_active
         get_active_duration print write_lock read_hosts write_hosts
         unlink_lock ret set_stdout set_lock_file set_hosts_file negb snd
         lock_file hosts_file hosts_readable hosts_writable stdout clock
         config_path config_file].
    destruct (fromisoformat _);
      cbv [bind print ret set_stdout set_lock_file set_hosts_file snd
           lock_file hosts_file hosts_readable hosts_writable];
      split; reflexivity.
Qed.

End Cleanup.

Lemma activate_deactivate_cleanup_witness :
  exists w1 w2,
    activate SampleDatetime.fromisoformat SampleDatetime.isoformat
             scenario_config scenario_world = (Return tt, w1) /\
    deactivate SampleDatetime.fromisoformat w1 = (Return tt, w2) /\
    hosts_file w2 = NL /\ lock_file w2 = None.
Proof.
  destruct (proj1 (activate_deactivate_cleanup
                     SampleDatetime.fromisoformat SampleDatetime.isoformat)
                  scenario_config scenario_world eq_refl eq_refl eq_refl)
    as [w1 [w2 [H1 [H2 [Hh [_ Hl]]]]]].
  { repeat constructor. }
  exists w1, w2. repeat split; assumption.
Defined.

(** C2, as stated, fails on the scenario of the specification: after
    activate then deactivate the hosts file, empty before, is not empty: it
    holds the separator line. *)
Lemma activate_deactivate_not_empty :
  let w1 := snd (activate SampleDatetime.fromisoformat SampleDatetime.isoformat
                          scenario_config scenario_world) in
  let w2 := snd (deactivate SampleDatetime.fromisoformat w1) in
  hosts_file scenario_world = "" /\ hosts_file w2 = NL /\ hosts_file w2 <> "".
Proof.
  vm_compute. split; [reflexivity|]. split; [reflexivity | discriminate].
Qed.

(** * Calls that change nothing *)

Section NoOps.

Variable fromisoformat : string -> string + datetime.
Variable isoformat : datetime -> string.

(** C4: when the lock file is present, [activate] returns after printing
    the already-active message with the elapsed duration read at that moment
    (the clock minus the time in the lock file, when it parses); the world it
    leaves differs from the world after reading the duration by that one
    message only, so the hosts file, its block and the lock file with its
    timestamp are unchanged. *)
Theorem activate_when_active (config : Config) (w : World) (content : string) :
  lock_file w = Some content ->
  exists d w_d,
    get_active_duration fromisoformat w = (Return d, w_d) /\
    (forall t, fromisoformat (strip content) = inr t -> d = (clock w - t)%Z) /\
    activate fromisoformat isoformat config w =
      (Return tt,
       set_stdout
         (list_append (stdout w_d)
            ("SiteBlocker is already active (running for "
             ++ format_duration d ++ ")" ++ NL)) w_d) /\
    hosts_file w_d = hosts_file w /\
    lock_file w_d = Some content /\
    count_containing MARKER_START (readlines (hosts_file w_d)) =
      count_containing MARKER_START (readlines (hosts_file w)).
Proof.
  intros Hlock.
  destruct (get_active_duration_present fromisoformat w content Hlock)
    as [d [out [Hd Ht]]].
  exists d, (set_stdout out w). split; [exact Hd|]. split; [exact Ht|].
  split; [|repeat split; exact Hlock].
  unfold activate, bind, is_active. rewrite Hlock, Hd. unfold print.
  now rewrite !append_assoc.
Qed.

(** C5: when the lock file is absent, [deactivate] returns after printing
    "SiteBlocker is not active"; the hosts file and the lock file are
    unchanged. *)
Theorem deactivate_when_inactive (w : World) :
  lock_file w = None ->
  deactivate fromisoformat w =
    (Return tt,
     set_stdout (list_append (stdout w) ("SiteBlocker is not active" ++ NL)) w) /\
  hosts_file (snd (deactivate fromisoformat w)) = hosts_file w /\
  lock_file (snd (deactivate fromisoformat w)) = None.
Proof.
  destruct w as [cp cf lk hf hr hw ck out]. cbn. intros ->.
  repeat split.
Qed.

(** C7: when the lock file is present and its content, stripped, is not
    parsed by [fromisoformat], [get_active_duration] returns (it does not
    exit) the zero duration, having printed the failure. *)
Theorem get_active_duration_unparsable (w : World) (content e : string) :
  lock_file w = Some content ->
  fromisoformat (strip content) = inl e ->
  get_active_duration fromisoformat w =
    (Return 0%Z,
     set_stdout (list_append (stdout w) ("Error reading lock file: " ++ e ++ NL)) w).
Proof.
  intros Hlock Hparse. unfold get_active_duration.
  rewrite Hlock, Hparse. unfold bind, print, ret.
  now rewrite !append_assoc.
Qed.

End NoOps.

Lemma activate_when_active_witness :
  exists d w_d,
    get_active_duration SampleDatetime.fromisoformat
      (set_lock_file (Some "2023-11-14T21:11:15") scenario_world) = (Return d, w_d) /\
    d = 3725000000%Z /\
    fst (activate SampleDatetime.fromisoformat SampleDatetime.isoformat
           scenario_config
           (set_lock_file (Some "2023-11-14T21:11:15") scenario_world)) = Return tt /\
    lock_file w_d = Some "2023-11-14T21:11:15".
Proof.
  destruct (activate_when_active SampleDatetime.fromisoformat
              SampleDatetime.isoformat scenario_config
              (set_lock_file (Some "2023-11-14T21:11:15") scenario_world)
              "2023-11-14T21:11:15" eq_refl)
    as [d [w_d [Hd [Ht [Hrun [_ [Hlock _]]]]]]].
  exists d, w_d. split; [exact Hd|].
  split; [apply (Ht 1699996275000000%Z); vm_compute; reflexivity|].
  split; [now rewrite Hrun | exact Hlock].
Defined.

Lemma deactivate_when_inactive_witness :
  deactivate SampleDatetime.fromisoformat scenario_world =
    (Return tt,
     set_stdout (list_append (stdout scenario_world)
                             ("SiteBlocker is not active" ++ NL)) scenario_world) /\
  hosts_file (snd (deactivate SampleDatetime.fromisoformat scenario_world)) = "" /\
  lock_file (snd (deactivate SampleDatetime.fromisoformat scenario_world)) = None.
Proof.
  apply (deactivate_when_inactive SampleDatetime.fromisoformat
           scenario_world eq_refl).
Defined.

Lemma get_active_duration_unparsable_witness :
  get_active_duration SampleDatetime.fromisoformat
    (set_lock_file (Some ("yesterday" ++ NL)) scenario_world) =
  (Return 0%Z,
   set_stdout
     (list_append (stdout scenario_world)
        ("Error reading lock file: " ++
         "Invalid isoformat string: 'yesterday'" ++ NL))
     (set_lock_file (Some ("yesterday" ++ NL)) scenario_world)).
Proof.
  apply (get_active_duration_unparsable SampleDatetime.fromisoformat
           (set_lock_file (Some ("yesterday" ++ NL)) scenario_world)
           ("yesterday" ++ NL) "Invalid isoformat string: 'yesterday'").
  - reflexivity.
  - vm_compute. reflexivity.
Defined.

(** * Duration formatting *)

Section Durations.

Open Scope Z_scope.

Lemma divmod_units (q r b : Z) :
  0 <= r < b -> divmod (b * q + r) b = (q, r).
Proof.
  intros Hr. unfold divmod. f_equal.
  - symmetry. apply (Z.div_unique _ _ q r); lia.
  - symmetry. apply (Z.mod_unique _ _ q r); lia.
Qed.

(** The rounding of the division leaves the whole seconds as they are when
    the scale is fine enough. *)
Lemma round_keeps_seconds (us P q r T : Z) :
  0 <= us -> 524288 <= P ->
  T = us / 1000000 ->
  q = us * P / 1000000 -> r = (us * P) mod 1000000 ->
  (T * P <= q /\ q < (T + 1) * P) /\
  (1000000 <= 2 * r -> q + 1 < (T + 1) * P).
Proof.
  intros Hus HP HT Hq Hr.
  pose proof (Z.div_mod us 1000000 ltac:(lia)) as Hd.
  pose proof (Z.mod_pos_bound us 1000000 ltac:(lia)) as Hf.
  pose proof (Z.div_mod (us * P) 1000000 ltac:(lia)) as HN.
  pose proof (Z.mod_pos_bound (us * P) 1000000 ltac:(lia)) as HrB.
  rewrite <- HT in Hd. rewrite <- Hq, <- Hr in HN. rewrite <- Hr in HrB.
  set (f := us mod 1000000) in *.
  assert (HNP : us * P = 1000000 * (T * P) + f * P) by (rewrite Hd at 1; ring).
  repeat split; nia.
Qed.

(** Below 2^34 seconds binary64 has at least 19 bits after the point. *)
Lemma scaled_exponent (us : Z) :
  0 < us < 17179869184000000 ->
  let e1 := Z.log2 us - Z.log2 1000000 - 52 in
  let e := if 2 ^ 52 <=? us * 2 ^ (- e1) / 1000000 then e1 else e1 - 1 in
  e < 0 /\ e1 < 0 /\ 524288 <= 2 ^ (- e).
Proof.
  intros Hus e1 e.
  assert (Hld : Z.log2 1000000 = 19) by reflexivity.
  pose proof (Z.log2_spec us ltac:(lia)) as [Hlo Hhi].
  assert (Hla : Z.log2 us < 54).
  { apply Z.log2_lt_pow2; [lia|]. change (2 ^ 54) with 18014398509481984. lia. }
  pose proof (Z.log2_nonneg us) as Hla0.
  assert (He1 : e1 <= -18) by (unfold e1; lia).
  assert (HP1 : 2 ^ Z.log2 us * 2 ^ (- e1) = 2 ^ 71).
  { rewrite <- Z.pow_add_r by lia. f_equal. unfold e1. lia. }
  assert (HP1pos : 0 < 2 ^ (- e1)) by (apply Z.pow_pos_nonneg; lia).
  assert (Hbig : 2 ^ 52 * 1000000 <= us * 2 ^ (- e)).
  { unfold e. destruct (2 ^ 52 <=? us * 2 ^ (- e1) / 1000000) eqn:E.
    - apply Z.leb_le in E.
      pose proof (Z.mul_div_le (us * 2 ^ (- e1)) 1000000 ltac:(lia)). nia.
    - replace (- (e1 - 1)) with (- e1 + 1) by lia.
      rewrite Z.pow_add_r by lia. change (2 ^ 1) with 2.
      change (2 ^ 71) with 2361183241434822606848 in HP1.
      change (2 ^ 52) with 4503599627370496. nia. }
  assert (He : e <= -18) by (unfold e; destruct (_ <=? _); lia).
  split; [lia|]. split; [lia|].
  assert (Hk : 18 < - e).
  { apply (Z.pow_lt_mono_r_iff 2); [lia | lia |].
    change (2 ^ 18) with 262144. change (2 ^ 52) with 4503599627370496 in Hbig.
    assert (0 < 2 ^ (- e)) by (apply Z.pow_pos_nonneg; lia). nia. }
  change 524288 with (2 ^ 19). apply Z.pow_le_mono_r; lia.
Qed.

(** Below 2^34 seconds, [int(duration.total_seconds())] is the number of
    whole seconds of the duration. *)
Lemma total_seconds_int_exact (us : Z) :
  0 <= us < 17179869184000000 ->
  total_seconds_int us = us / 1000000.
Proof.
  intros Hus.
  destruct (Z.eq_dec us 0) as [-> | Hne]; [reflexivity|].
  assert (Hpos : 0 < us < 17179869184000000) by lia.
  destruct (scaled_exponent us Hpos) as (He & He1 & HP).
  unfold total_seconds_int, total_seconds, true_divide, int_of_float.
  rewrite (Z.abs_eq us) by lia.
  destruct (us =? 0) eqn:E0; [apply Z.eqb_eq in E0; lia|].
  cbv zeta.
  set (e1 := Z.log2 us - Z.log2 1000000 - 52) in *.
  assert (Hs1 : (0 <=? e1) = false) by (apply Z.leb_gt; lia).
  rewrite Hs1. cbn [fst snd].
  set (e := if 2 ^ 52 <=? us * 2 ^ (- e1) / 1000000 then e1 else e1 - 1) in *.
  assert (Hs : (0 <=? e) = false) by (apply Z.leb_gt; lia).
  rewrite Hs. cbn [fst snd].
  rewrite (Z.sgn_pos us) by lia. rewrite Z.mul_1_l.
  set (P := 2 ^ (- e)) in *.
  set (q := us * P / 1000000).
  set (r := (us * P) mod 1000000).
  destruct (round_keeps_seconds us P q r (us / 1000000)
              ltac:(lia) HP eq_refl eq_refl eq_refl) as [[Hlow Hup] Hround].
  assert (HT : 0 <= us / 1000000) by (apply Z.div_pos; lia).
  assert (Hq0 : 0 <= q) by nia.
  set (m := if (1000000 <? 2 * r) || ((2 * r =? 1000000) && Z.odd q) then q + 1 else q).
  assert (Hm : us / 1000000 * P <= m < (us / 1000000 + 1) * P).
  { unfold m. destruct ((1000000 <? 2 * r) || ((2 * r =? 1000000) && Z.odd q)) eqn:Er.
    - assert (1000000 <= 2 * r).
      { apply orb_true_iff in Er as [Er | Er].
        - apply Z.ltb_lt in Er. lia.
        - apply andb_true_iff in Er as [Er _]. apply Z.eqb_eq in Er. lia. }
      specialize (Hround H). lia.
    - lia. }
  rewrite Z.quot_div_nonneg by lia.
  symmetry. apply (Z.div_unique _ _ _ (m - us / 1000000 * P)); lia.
Qed.

(** C8, as amended: when the whole seconds of a duration,
    [int(duration.total_seconds())], are [h] hours, [m] minutes (below 60)
    and [s] seconds (below 60), none negative, the duration is rendered
    "<h>h <m>m <s>s" when [h] is not 0, else "<m>m <s>s" when [m] is not 0,
    else "<s>s": from the most significant non-zero unit down to seconds.
    45 seconds give "45s", 125 seconds "2m 5s", 3725 seconds "1h 2m 5s".
    The whole seconds are those of the duration, fraction dropped, for every
    duration from 0 to 2^34 seconds. *)
Theorem format_duration_units (duration : timedelta) (h m s : Z) :
  total_seconds_int duration = 3600 * h + 60 * m + s ->
  0 <= h -> 0 <= m < 60 -> 0 <= s < 60 ->
  format_duration duration =
    (if Z.ltb 0 h then str h ++ "h " ++ str m ++ "m " ++ str s ++ "s"
     else if Z.ltb 0 m then str m ++ "m " ++ str s ++ "s"
     else str s ++ "s")%string /\
  format_duration (45 * 1000000) = "45s"%string /\
  format_duration (125 * 1000000) = "2m 5s"%string /\
  format_duration (3725 * 1000000) = "1h 2m 5s"%string /\
  (forall d : timedelta,
     0 <= d < 17179869184000000 -> total_seconds_int d = d / 1000000).
Proof.
  intros Htotal Hh Hm Hs.
  split; [|split; [|split; [|split]];
           [vm_compute; reflexivity .. | exact total_seconds_int_exact]].
  unfold format_duration. rewrite Htotal.
  replace (3600 * h + 60 * m + s) with (3600 * h + (60 * m + s)) by lia.
  rewrite divmod_units by lia.
  rewrite divmod_units by lia.
  rewrite !Z.gtb_ltb. reflexivity.
Qed.

Lemma format_duration_units_witness :
  format_duration 3607250000 = "1h 0m 7s"%string /\
  format_duration 3540000000 = "59m 0s"%string /\
  format_duration 999999 = "0s"%string.
Proof.
  split; [|split].
  - apply (proj1 (format_duration_units 3607250000 1 0 7
                    eq_refl ltac:(lia) ltac:(lia) ltac:(lia))).
  - apply (proj1 (format_duration_units 3540000000 0 59 0
                    eq_refl ltac:(lia) ltac:(lia) ltac:(lia))).
  - apply (proj1 (format_duration_units 999999 0 0 0
                    eq_refl ltac:(lia) ltac:(lia) ltac:(lia))).
Defined.

(** C8, as stated, fails for a duration before the clock: the whole seconds
    of -45 s are -45, which the code decomposes into -1 hour and 3555
    seconds; the hour, though not 0, is not rendered. *)
Lemma format_duration_hides_negative_hours :
  total_seconds_int (-45000000) = -45 /\
  divmod (-45) 3600 = (-1, 3555) /\
  format_duration (-45000000) = "59m 15s"%string.
Proof. vm_compute. repeat split. Qed.

End Durations.

(** * The timer and its interruption *)

Section Interrupt.

Variable fromisoformat : string -> string + datetime.
Variable isoformat : datetime -> string.

Lemma print_same_files (s : string) (w : World) :
  exists w', print s w = (Return tt, w') /\ same_files w w'.
Proof. eexists. split; [reflexivity|]. now destruct w. Qed.

(** The handler on an active session with the hosts file accessible. *)
Lemma signal_handler_deactivates (w : World) (content : string) :
  lock_file w = Some content ->
  hosts_readable w = true -> hosts_writable w = true ->
  exists w',
    signal_handler fromisoformat w = (Exit 0%Z, w') /\
    hosts_file w' = writelines (remove_blocker_entries (readlines (hosts_file w))) /\
    lock_file w' = None.
Proof.
  intros Hlock Hr Hw. unfold signal_handler, bind at 1.
  destruct (print_same_files (NL ++ NL ++ "Deactivating...") w)
    as [w1 [-> (_ & Hl & Hh & Hr1 & Hw1)]].
  rewrite Hlock in Hl. rewrite Hr in Hr1. rewrite Hw in Hw1.
  destruct (deactivate_active fromisoformat w1 content Hl Hr1 Hw1)
    as [w2 [Hrun [Hhosts Hnone]]].
  unfold bind. rewrite Hrun. exists w2. rewrite <- Hh.
  split; [reflexivity | split; assumption].
Qed.


Lemma timer_loop_deactivates (rounds : nat) (w : World) (content : string) :
  lock_file w = Some content ->
  hosts_readable w = true -> hosts_writable w = true ->
  exists w',
    timer_loop fromisoformat rounds w = (Exit 0%Z, w') /\
    hosts_file w' = writelines (remove_blocker_entries (readlines (hosts_file w))) /\
    lock_file w' = None.
Proof.
  revert w. induction rounds as [|n IH]; intros w Hlock Hr Hw.
  - now apply (signal_handler_deactivates w content).
  - cbn [timer_loop]. unfold bind at 1.
    destruct (timer_round_same_files fromisoformat w)
      as [w1 [-> (_ & Hl & Hh & Hr1 & Hw1)]].
    rewrite <- Hh. apply IH; congruence.
Qed.


(** [run_interactive] on an active session: the two banner lines, then the
    timer until the interrupt. *)
Lemma run_interactive_active (rounds : nat) (w : World) (content : string) :
  lock_file w = Some content ->
  exists w2,
    run_interactive fromisoformat rounds w = timer_loop fromisoformat rounds w2 /\
    same_files w w2.
Proof.
  intros Hlock.
  unfold run_interactive, bind at 1, is_active. rewrite Hlock. cbn [negb].
  unfold bind at 1.
  destruct (print_same_files "SiteBlocker is active. Timer running..." w)
    as [w1 [-> (Hc1 & Hl1 & Hh1 & Hr1 & Hw1)]].
  unfold bind at 1.
  destruct (print_same_files ("Press Ctrl+C to deactivate" ++ NL) w1)
    as [w2 [-> (Hc2 & Hl2 & Hh2 & Hr2 & Hw2)]].
  exists w2. split; [reflexivity|]. repeat split; congruence.
Qed.



End Interrupt.



(** * The exit status *)

Section ExitStatus.

Variable fromisoformat : string -> string + datetime.
Variable isoformat : datetime -> string.

Lemma print_all_returns (msgs : list string) (w : World) :
  print_all msgs w =
    (Return tt,
     set_stdout (stdout w ++ map (fun m => (m ++ NL)%string) msgs)%list w).
Proof.
  revert w. induction msgs as [|m rest IH]; intros w.
  - cbn. rewrite app_nil_r. now destruct w.
  - cbn [print_all map]. unfold bind, print. rewrite IH.
    destruct w. cbn. unfold list_append. now rewrite <- app_assoc.
Qed.






Lemma exit_status_main (argv : list string) (rounds : nat) (w : World) :
  exit_status fromisoformat isoformat argv rounds w =
    (status_of (fst (main fromisoformat isoformat argv rounds w)),
     snd (main fromisoformat isoformat argv rounds w)).
Proof.
  unfold exit_status.
  now destruct (main fromisoformat isoformat argv rounds w) as [[[]|code|e] w'].
Qed.


Lemma config_file_loaded (w : World) (config : Config) :
  config_file w = Some config -> config_source w = ConfigLoaded config.
Proof.
  unfold config_file. destruct (config_source w); congruence.
Qed.

(** [main] once the configuration is loaded, when it is missing, and when
    it does not load. *)
Lemma main_loaded (argv : list string) (rounds : nat) (w : World) (config : Config) :
  config_file w = Some config ->
  main fromisoformat isoformat argv rounds w =
    (if (List.length argv <? 2)%nat then
       print_all usage_lines ;; sys_exit 1
     else
       let command := lower (nth 1 argv "") in
       if String.eqb command "activate" then
         activate fromisoformat isoformat config ;;
         run_interactive fromisoformat rounds
       else if String.eqb command "deactivate" then deactivate fromisoformat
       else if String.eqb command "status" then status fromisoformat config
       else if String.eqb command "run" then run_interactive fromisoformat rounds
       else print ("Unknown command: " ++ command) ;; sys_exit 1) w.
Proof.
  intros Hcfg%config_file_loaded. unfold main, bind at 1, load_config.
  now rewrite Hcfg.
Qed.

Lemma main_not_loaded (argv : list string) (rounds : nat) (w : World) :
  config_source w = ConfigMissing ->
  main fromisoformat isoformat argv rounds w =
    (Exit 1%Z,
     set_stdout
       (list_append (stdout w)
          (("Error: Config file not found at " ++ config_path w) ++ NL)) w).
Proof.
  intros Hcfg. unfold main, bind at 1, load_config. now rewrite Hcfg.
Qed.

Lemma main_invalid (argv : list string) (rounds : nat) (w : World) (e : string) :
  config_source w = ConfigInvalid e ->
  main fromisoformat isoformat argv rounds w = (Uncaught e, w).
Proof.
  intros Hcfg. unfold main, bind at 1, load_config. now rewrite Hcfg.
Qed.


End ExitStatus.



(** * Further properties of the removal pass *)

Section RemovalProperties.

Lemma drop_blocks_subsequence (lines : list string) (inside : bool) :
  subsequence (drop_blocks inside lines) lines.
Proof.
  revert inside. induction lines as [|line rest IH]; intros inside; [constructor|].
  cbn [drop_blocks].
  destruct (contains MARKER_START line); [apply subsequence_skip, IH|].
  destruct (contains MARKER_END line); [apply subsequence_skip, IH|].
  destruct inside; [apply subsequence_skip, IH | apply subsequence_keep, IH].
Qed.

Lemma subsequence_length {A : Type} (kept lines : list A) :
  subsequence kept lines -> (List.length kept <= List.length lines)%nat.
Proof. induction 1; cbn; lia. Qed.

(** X1: the lines [remove_blocker_entries] returns are lines of its input,
    in the order of the input: it adds no line, changes none and moves none. *)
Theorem remove_blocker_entries_subsequence (lines : list string) :
  subsequence (remove_blocker_entries lines) lines /\
  (List.length (remove_blocker_entries lines) <= List.length lines)%nat.
Proof.
  rewrite remove_blocker_entries_scan.
  pose proof (drop_blocks_subsequence lines false) as H.
  split; [exact H | apply subsequence_length, H].
Qed.

(** X2: [remove_blocker_entries] returns unchanged a list of lines none of
    which holds a marker. *)
Theorem remove_blocker_entries_clean (lines : list string) :
  Forall marker_free lines -> remove_blocker_entries lines = lines.
Proof.
  intros H. rewrite remove_blocker_entries_scan.
  apply (proj1 (drop_blocks_clean lines H)).
Qed.

Lemma remove_blocker_entries_clean_witness :
  remove_blocker_entries (sample_before ++ sample_after) =
    (sample_before ++ sample_after)%list.
Proof.
  apply (remove_blocker_entries_clean (sample_before ++ sample_after)).
  repeat constructor.
Defined.

(** X3: [remove_blocker_entries] is idempotent. *)
Theorem remove_blocker_entries_idempotent (lines : list string) :
  remove_blocker_entries (remove_blocker_entries lines) =
    remove_blocker_entries lines.
Proof.
  rewrite !remove_blocker_entries_scan.
  apply (proj1 (drop_blocks_clean _ (drop_blocks_marker_free lines false))).
Qed.

(** X4: a block among lines without markers is removed, and nothing else:
    the result is the lines before the start marker line followed by the
    lines after the end marker line.  The lines of the block may hold
    anything but the end marker. *)
Theorem remove_blocker_entries_one_block
        (before block after : list string) (first last : string) :
  Forall marker_free before -> Forall marker_free after ->
  contains MARKER_START first = true ->
  Forall (fun l => contains MARKER_END l = false) block ->
  contains MARKER_START last = false -> contains MARKER_END last = true ->
  remove_blocker_entries (before ++ first :: block ++ last :: after) =
    (before ++ after)%list.
Proof.
  intros Hbefore Hafter Hfirst Hblock Hlast1 Hlast2.
  rewrite remove_blocker_entries_scan, drop_blocks_app.
  destruct (drop_blocks_clean _ Hbefore) as [-> ->].
  cbn [drop_blocks]. rewrite Hfirst, drop_blocks_app.
  destruct (drop_blocks_unterminated _ Hblock) as [-> ->].
  cbn [drop_blocks app]. rewrite Hlast1, Hlast2.
  now rewrite (proj1 (drop_blocks_clean _ Hafter)).
Qed.

Lemma remove_blocker_entries_one_block_witness :
  remove_blocker_entries
    (sample_before ++
     (MARKER_START ++ NL)%string :: remark_lines ++
     (MARKER_END ++ NL)%string :: sample_after) =
  (sample_before ++ sample_after)%list.
Proof.
  apply (remove_blocker_entries_one_block sample_before remark_lines sample_after
           (MARKER_START ++ NL) (MARKER_END ++ NL)).
  - repeat constructor.
  - repeat constructor.
  - vm_compute. reflexivity.
  - repeat constructor.
  - vm_compute. reflexivity.
  - vm_compute. reflexivity.
Defined.

End RemovalProperties.

(** * Further properties of the session *)

Section SessionProperties.

Variable fromisoformat : string -> string + datetime.
Variable isoformat : datetime -> string.

(** The removal pass, from read to write, leaves a text without marker
    lines as it is. *)
Lemma kept_text_clean (text : string) :
  Forall marker_free (readlines text) ->
  writelines (remove_blocker_entries (readlines text)) = text.
Proof.
  intros H. rewrite remove_blocker_entries_scan.
  rewrite (proj1 (drop_blocks_clean _ H)). apply writelines_readlines.
Qed.

(** X5: on a hosts file no line of which holds a marker, activation (from
    an inactive session, the file readable and writable) only appends: the
    text of the file afterwards is the text read from it before (the text as
    text mode gives it), followed by LF and the block. *)
Theorem activate_appends_to_clean_file (config : Config) (w : World) :
  lock_file w = None -> hosts_readable w = true -> hosts_writable w = true ->
  Forall marker_free (readlines (hosts_file w)) ->
  exists w',
    activate fromisoformat isoformat config w = (Return tt, w') /\
    hosts_file w' =
      hosts_file w ++ NL ++ MARKER_START ++ NL ++
      writelines (map (entry_line (get_redirect_ip config)) (get_blocklist config)) ++
      MARKER_END ++ NL /\
    lock_file w' = Some (isoformat (clock w)).
Proof.
  intros Hlock Hr Hw Hclean.
  destruct (activate_fresh fromisoformat isoformat config w Hlock Hr Hw)
    as [w' [Hrun [Hhosts [Hlock' _]]]].
  exists w'. split; [exact Hrun|]. split; [|exact Hlock'].
  now rewrite Hhosts, writelines_add_blocker_entries, (kept_text_clean _ Hclean).
Qed.

(** X6: activation without the permission to read and write the hosts file
    ends the process with status 1 after the lock file is written: the hosts
    file is unchanged, and the session is left marked active. *)
Theorem activate_denied_leaves_lock (config : Config) (w : World) :
  lock_file w = None ->
  hosts_readable w && hosts_writable w = false ->
  exists w',
    activate fromisoformat isoformat config w = (Exit 1%Z, w') /\
    hosts_file w' = hosts_file w /\
    lock_file w' = Some (isoformat (clock w)) /\
    stdout w' =
      (stdout w ++ [("Activating SiteBlocker..." ++ NL)%string;
                    (sudo_message ++ NL)%string])%list.
Proof.
  destruct w as [cp cf lk hf hr hw ck out].
  cbn [lock_file hosts_readable hosts_writable hosts_file clock stdout].
  intros -> Hd.
  unfold activate, bind, is_active, print, write_lock, read_hosts, write_hosts,
    sys_exit, set_stdout, set_lock_file, list_append.
  cbn [lock_file hosts_readable hosts_writable hosts_file clock stdout].
  destruct hr, hw; try discriminate Hd;
    (eexists; split; [reflexivity|]);
    cbv [set_stdout set_lock_file list_append lock_file hosts_readable
         hosts_writable hosts_file clock stdout config_path config_file];
    rewrite <- !app_assoc; repeat split.
Qed.

(** X7: deactivation of an active session without the permission to read
    and write the hosts file ends the process with status 1 and changes
    neither the hosts file nor the lock file: the session stays active. *)
Theorem deactivate_denied_changes_nothing (w : World) (content : string) :
  lock_file w = Some content ->
  hosts_readable w && hosts_writable w = false ->
  exists w',
    deactivate fromisoformat w = (Exit 1%Z, w') /\
    hosts_file w' = hosts_file w /\ lock_file w' = Some content.
Proof.
  intros Hlock Hd.
  destruct (deactivate_denied fromisoformat w content Hlock Hd)
    as [w' [Hrun [Hhosts Hsame]]].
  exists w'. split; [exact Hrun|]. split; [exact Hhosts | congruence].
Qed.

(** X8: deactivation of an active session whose hosts file holds no marker
    line (the block was taken out by hand) writes back the text it read (the
    text as text mode gives it): the text of the hosts file is the same
    afterwards; the lock file is removed. *)
Theorem deactivate_clean_file (w : World) (content : string) :
  lock_file w = Some content ->
  hosts_readable w = true -> hosts_writable w = true ->
  Forall marker_free (readlines (hosts_file w)) ->
  exists w',
    deactivate fromisoformat w = (Return tt, w') /\
    hosts_file w' = hosts_file w /\ lock_file w' = None.
Proof.
  intros Hlock Hr Hw Hclean.
  destruct (deactivate_active fromisoformat w content Hlock Hr Hw)
    as [w' [Hrun [Hhosts Hnone]]].
  exists w'. split; [exact Hrun|]. split; [|exact Hnone].
  now rewrite Hhosts, (kept_text_clean _ Hclean).
Qed.

(** X9: [status] is a query: it returns, it changes nothing but the output,
    and what it prints is one line for an inactive session, and for an
    active one whose lock file parses three lines: the state, the elapsed
    duration (the clock minus the time in the lock file) and the number of
    configured domains. *)
Theorem status_report (config : Config) (w : World) :
  exists out,
    status fromisoformat config w =
      (Return tt, set_stdout (stdout w ++ out)%list w) /\
    (lock_file w = None -> out = [("SiteBlocker is INACTIVE" ++ NL)%string]) /\
    (forall content t,
       lock_file w = Some content ->
       fromisoformat (strip content) = inr t ->
       out =
         [("SiteBlocker is ACTIVE" ++ NL)%string;
          ("Duration: " ++ format_duration (Z.sub (clock w) t) ++ NL)%string;
          ("Blocking " ++ str (Z.of_nat (List.length (get_blocklist config)))
           ++ " domains" ++ NL)%string]).
Proof.
  destruct w as [cp cf lk hf hr hw ck out0].
  cbv [status bind is_active get_active_duration print ret set_stdout
       list_append lock_file hosts_readable hosts_writable hosts_file clock
       stdout config_path config_file].
  destruct lk as [content|].
  - destruct (fromisoformat (strip content)) as [e|t] eqn:E.
    + exists [(("Error reading lock file: " ++ e) ++ NL)%string;
              ("SiteBlocker is ACTIVE" ++ NL)%string;
              (("Duration: " ++ format_duration 0%Z) ++ NL)%string;
              (("Blocking " ++ str (Z.of_nat (List.length (get_blocklist config)))
                ++ " domains") ++ NL)%string].
      split; [now rewrite <- !app_assoc|].
      split; [discriminate|].
      intros content' t' [= <-] Ht. congruence.
    + exists [("SiteBlocker is ACTIVE" ++ NL)%string;
              ("Duration: " ++ format_duration (Z.sub ck t) ++ NL)%string;
              ("Blocking " ++ str (Z.of_nat (List.length (get_blocklist config)))
               ++ " domains" ++ NL)%string].
      split; [now rewrite <- !app_assoc, !append_assoc|].
      split; [discriminate|].
      intros content' t' [= <-] Ht. rewrite E in Ht. now injection Ht as <-.
  - eexists. split; [reflexivity|].
    split; [reflexivity | discriminate].
Qed.

End SessionProperties.

Lemma activate_appends_to_clean_file_witness :
  exists w',
    activate SampleDatetime.fromisoformat SampleDatetime.isoformat
             scenario_config plain_world = (Return tt, w') /\
    hosts_file w' =
      plain_hosts ++ NL ++ "# SiteBlocker START" ++ NL ++ "0.0.0.0 a.com" ++ NL ++
      "0.0.0.0 b.com" ++ NL ++ "# SiteBlocker END" ++ NL /\
    lock_file w' = Some "2023-11-14T22:13:20".
Proof.
  destruct (activate_appends_to_clean_file SampleDatetime.fromisoformat
              SampleDatetime.isoformat scenario_config plain_world
              eq_refl eq_refl eq_refl) as [w' [Hrun [Hhosts Hlock]]].
  { repeat constructor. }
  exists w'. split; [exact Hrun|]. split; [exact Hhosts | exact Hlock].
Defined.

Lemma activate_denied_leaves_lock_witness :
  exists w',
    activate SampleDatetime.fromisoformat SampleDatetime.isoformat
             scenario_config unprivileged_world = (Exit 1%Z, w') /\
    hosts_file w' = plain_hosts /\
    lock_file w' = Some "2023-11-14T22:13:20".
Proof.
  destruct (activate_denied_leaves_lock SampleDatetime.fromisoformat
              SampleDatetime.isoformat scenario_config unprivileged_world
              eq_refl eq_refl) as [w' [Hrun [Hhosts [Hlock _]]]].
  exists w'. split; [exact Hrun|]. split; [exact Hhosts | exact Hlock].
Defined.

Lemma deactivate_denied_changes_nothing_witness :
  exists w',
    deactivate SampleDatetime.fromisoformat active_unprivileged_world =
      (Exit 1%Z, w') /\
    hosts_file w' = hosts_file active_world /\
    lock_file w' = Some "2023-11-14T21:11:15".
Proof.
  apply (deactivate_denied_changes_nothing SampleDatetime.fromisoformat
           active_unprivileged_world "2023-11-14T21:11:15" eq_refl eq_refl).
Defined.

Lemma deactivate_clean_file_witness :
  exists w',
    deactivate SampleDatetime.fromisoformat active_plain_world = (Return tt, w') /\
    hosts_file w' = plain_hosts /\ lock_file w' = None.
Proof.
  apply (deactivate_clean_file SampleDatetime.fromisoformat active_plain_world
           "2023-11-14T21:11:15" eq_refl eq_refl eq_refl).
  repeat constructor.
Defined.

Lemma status_report_witness :
  exists out,
    status SampleDatetime.fromisoformat scenario_config active_plain_world =
      (Return tt, set_stdout (stdout active_plain_world ++ out)%list active_plain_world) /\
    out = [("SiteBlocker is ACTIVE" ++ NL)%string;
           ("Duration: 1h 2m 5s" ++ NL)%string;
           ("Blocking 2 domains" ++ NL)%string].
Proof.
  destruct (status_report SampleDatetime.fromisoformat scenario_config
              active_plain_world) as [out [Hrun [_ Hactive]]].
  exists out. split; [exact Hrun|].
  apply (Hactive "2023-11-14T21:11:15" 1699996275000000%Z eq_refl).
  vm_compute. reflexivity.
Defined.

(** * Whole runs *)

Section Runs.

Variable fromisoformat : string -> string + datetime.
Variable isoformat : datetime -> string.

Lemma keeps_env_bind {A B : Type} (m : M A) (k : A -> M B) :
  keeps_env m -> (forall a, keeps_env (k a)) -> keeps_env (bind m k).
Proof.
  intros Hm Hk w. unfold bind. specialize (Hm w).
  destruct (m w) as [[a|code|e] w1]; cbn [snd] in *; [|exact Hm|exact Hm].
  destruct (Hk a w1) as (H1 & H2 & H3). destruct Hm as (G1 & G2 & G3).
  repeat split; congruence.
Qed.

Lemma keeps_env_print (s : string) : keeps_env (print s).
Proof. intros [cp cf lk hf hr hw ck out]. repeat split. Qed.

Lemma keeps_env_print_noend (s : string) : keeps_env (print_noend s).
Proof. intros [cp cf lk hf hr hw ck out]. repeat split. Qed.

Lemma keeps_env_ret {A : Type} (a : A) : keeps_env (ret a).
Proof. intros w. repeat split. Qed.

Lemma keeps_env_sys_exit {A : Type} (code : Z) : keeps_env (@sys_exit A code).
Proof. intros w. repeat split. Qed.

Lemma keeps_env_sleep_1 : keeps_env sleep_1.
Proof. intros [cp cf lk hf hr hw ck out]. repeat split. Qed.

Lemma keeps_env_is_active : keeps_env is_active.
Proof. intros w. repeat split. Qed.

Lemma keeps_env_write_lock : keeps_env (write_lock isoformat).
Proof. intros [cp cf lk hf hr hw ck out]. repeat split. Qed.

Lemma keeps_env_unlink_lock : keeps_env unlink_lock.
Proof. intros [cp cf lk hf hr hw ck out]. repeat split. Qed.

Lemma keeps_env_get_active_duration :
  keeps_env (get_active_duration fromisoformat).
Proof.
  intros [cp cf lk hf hr hw ck out]. unfold get_active_duration.
  cbn [lock_file]. destruct lk as [content|]; [|repeat split].
  destruct (fromisoformat (strip content)); repeat split.
Qed.

Lemma keeps_env_read_hosts : keeps_env read_hosts.
Proof.
  intros [cp cf lk hf hr hw ck out]. unfold read_hosts. cbn [hosts_readable].
  destruct hr; repeat split.
Qed.

Lemma keeps_env_write_hosts (lines : list string) : keeps_env (write_hosts lines).
Proof.
  intros [cp cf lk hf hr hw ck out]. unfold write_hosts. cbn [hosts_writable].
  destruct hw; repeat split.
Qed.

Lemma keeps_env_print_all (msgs : list string) : keeps_env (print_all msgs).
Proof.
  induction msgs as [|m rest IH]; [apply keeps_env_ret|].
  apply keeps_env_bind; [apply keeps_env_print | intros _; exact IH].
Qed.

Lemma keeps_env_load_config : keeps_env load_config.
Proof.
  intros [cp cf lk hf hr hw ck out]. unfold load_config. cbn [config_source].
  destruct cf; repeat split.
Qed.

Create HintDb env.
Hint Resolve keeps_env_print keeps_env_print_noend keeps_env_ret
  keeps_env_sys_exit keeps_env_sleep_1 keeps_env_is_active
  keeps_env_write_lock keeps_env_unlink_lock keeps_env_get_active_duration
  keeps_env_read_hosts keeps_env_write_hosts keeps_env_print_all
  keeps_env_load_config : env.

Ltac keeps :=
  repeat first
    [ solve [auto with env]
    | apply keeps_env_bind; [|intros ?]
    | match goal with
      | |- keeps_env (if ?b then _ else _) => destruct b
      end ].

Lemma keeps_env_activate (config : Config) :
  keeps_env (activate fromisoformat isoformat config).
Proof. unfold activate. keeps. Qed.

Lemma keeps_env_deactivate : keeps_env (deactivate fromisoformat).
Proof. unfold deactivate. keeps. Qed.

Lemma keeps_env_status (config : Config) :
  keeps_env (status fromisoformat config).
Proof. unfold status. keeps. Qed.

Lemma keeps_env_timer_loop (rounds : nat) :
  keeps_env (timer_loop fromisoformat rounds).
Proof.
  induction rounds as [|n IH]; cbn [timer_loop].
  - unfold signal_handler. pose proof keeps_env_deactivate. keeps.
  - unfold timer_round. keeps.
Qed.

Lemma keeps_env_run_interactive (rounds : nat) :
  keeps_env (run_interactive fromisoformat rounds).
Proof. unfold run_interactive. pose proof (keeps_env_timer_loop rounds). keeps. Qed.

Lemma keeps_env_main (argv : list string) (rounds : nat) :
  keeps_env (main fromisoformat isoformat argv rounds).
Proof.
  unfold main.
  apply keeps_env_bind; [apply keeps_env_load_config | intros config].
  pose proof (keeps_env_activate config).
  pose proof keeps_env_deactivate.
  pose proof (keeps_env_status config).
  pose proof (keeps_env_run_interactive rounds).
  keeps.
Qed.

(** One foreground session, from an inactive session to the interrupt. *)
Lemma foreground_session_step (argv : list string) (rounds : nat) (w : World)
      (config : Config) :
  config_file w = Some config ->
  (2 <= List.length argv)%nat -> lower (nth 1 argv "") = "activate" ->
  lock_file w = None -> hosts_readable w = true -> hosts_writable w = true ->
  Forall (fun d => contains MARKER_END
                     (entry_line (get_redirect_ip config) d) = false)
         (get_blocklist config) ->
  exists w',
    exit_status fromisoformat isoformat argv rounds w = (0%Z, w') /\
    hosts_file w' =
      writelines (remove_blocker_entries (readlines (hosts_file w))) ++ NL /\
    lock_file w' = None /\
    config_file w' = Some config /\
    hosts_readable w' = true /\ hosts_writable w' = true.
Proof.
  intros Hcfg Hlen Hcmd Hlock Hr Hw Hend.
  destruct (keeps_env_main argv rounds w) as (E1 & E2 & E3).
  unfold exit_status.
  revert E1 E2 E3. rewrite (main_loaded _ _ argv rounds w config Hcfg).
  apply Nat.ltb_ge in Hlen. rewrite Hlen. cbn zeta. rewrite Hcmd.
  cbn [String.eqb Ascii.eqb Bool.eqb]. unfold bind.
  destruct (activate_fresh fromisoformat isoformat config w Hlock Hr Hw)
    as [w1 [-> [Hhosts1 [Hlock1 [Hr1 [Hw1 _]]]]]].
  destruct (run_interactive_active fromisoformat rounds w1 _ Hlock1)
    as [w2 [-> (_ & Hl2 & Hh2 & Hr2 & Hw2)]].
  rewrite Hlock1 in Hl2. rewrite Hr1 in Hr2. rewrite Hw1 in Hw2.
  destruct (timer_loop_deactivates fromisoformat rounds w2 _ Hl2 Hr2 Hw2)
    as [w' [-> [Hhosts' Hnone]]].
  cbn [fst snd]. intros E1 E2 E3.
  exists w'. split; [reflexivity|].
  split; [|repeat split; congruence].
  rewrite Hhosts', Hh2, Hhosts1, writelines_add_blocker_entries.
  rewrite (remove_written_block _ _ _ (kept_lines_file_lines _)
             (kept_lines_marker_free _) Hend).
  apply writelines_readlines.
Qed.

(** X10: a whole foreground session.  Started with the command [activate]
    (in any letter case) on an inactive session, with a configuration file,
    the hosts file readable and writable and no generated line holding the
    end marker, and interrupted after any number of rounds of the timer, the
    process ends with status 0; the hosts file holds what the removal pass
    keeps of its former content, then one LF; the lock file is absent. *)
Theorem foreground_session_restores (argv : list string) (rounds : nat)
        (w : World) (config : Config) :
  config_file w = Some config ->
  (2 <= List.length argv)%nat -> lower (nth 1 argv "") = "activate" ->
  lock_file w = None -> hosts_readable w = true -> hosts_writable w = true ->
  Forall (fun d => contains MARKER_END
                     (entry_line (get_redirect_ip config) d) = false)
         (get_blocklist config) ->
  exists w',
    exit_status fromisoformat isoformat argv rounds w = (0%Z, w') /\
    hosts_file w' =
      writelines (remove_blocker_entries (readlines (hosts_file w))) ++ NL /\
    lock_file w' = None.
Proof.
  intros Hcfg Hlen Hcmd Hlock Hr Hw Hend.
  destruct (foreground_session_step argv rounds w config
              Hcfg Hlen Hcmd Hlock Hr Hw Hend) as [w' [Hrun [Hhosts [Hnone _]]]].
  exists w'. split; [exact Hrun|]. split; [exact Hhosts | exact Hnone].
Qed.

(** Sessions on a hosts file without marker lines: one LF more each. *)
Lemma run_sessions_clean (schedule : list nat) (w : World) (config : Config) :
  config_file w = Some config ->
  lock_file w = None -> hosts_readable w = true -> hosts_writable w = true ->
  Forall (fun d => contains MARKER_END
                     (entry_line (get_redirect_ip config) d) = false)
         (get_blocklist config) ->
  Forall marker_free (readlines (hosts_file w)) ->
  hosts_file (run_sessions fromisoformat isoformat schedule w) =
    hosts_file w ++ newlines (List.length schedule) /\
  lock_file (run_sessions fromisoformat isoformat schedule w) = None.
Proof.
  revert w. induction schedule as [|rounds rest IH];
    intros w Hcfg Hlock Hr Hw Hend Hclean.
  - cbn. now rewrite append_empty_r.
  - cbn [run_sessions List.length newlines].
    destruct (foreground_session_step ["siteblocker.py"; "activate"] rounds w config
                Hcfg ltac:(cbn; lia) eq_refl Hlock Hr Hw Hend)
      as [w' [-> [Hhosts [Hnone [Hcfg' [Hr' Hw']]]]]].
    cbn [snd].
    rewrite remove_blocker_entries_scan, (proj1 (drop_blocks_clean _ Hclean)),
      writelines_readlines in Hhosts.
    assert (Hclean' : Forall marker_free (readlines (hosts_file w'))).
    { rewrite Hhosts, <- (writelines_readlines (hosts_file w)).
      apply separator_lines_marker_free; [apply readlines_file_lines | exact Hclean]. }
    destruct (IH w' Hcfg' Hnone Hr' Hw' Hend Hclean') as [-> ->].
    now rewrite Hhosts, append_assoc.
Qed.

(** X11: foreground sessions one after the other, under the conditions of
    one session, leave one LF more each at the end of the hosts file: after
    [n] sessions ([n] at least 1) it holds what the removal pass keeps of its
    first content, then [n] LF. *)
Theorem sessions_accumulate_newlines (rounds : nat) (schedule : list nat)
        (w : World) (config : Config) :
  config_file w = Some config ->
  lock_file w = None -> hosts_readable w = true -> hosts_writable w = true ->
  Forall (fun d => contains MARKER_END
                     (entry_line (get_redirect_ip config) d) = false)
         (get_blocklist config) ->
  hosts_file (run_sessions fromisoformat isoformat (rounds :: schedule) w) =
    writelines (remove_blocker_entries (readlines (hosts_file w))) ++
    newlines (S (List.length schedule)) /\
  lock_file (run_sessions fromisoformat isoformat (rounds :: schedule) w) = None.
Proof.
  intros Hcfg Hlock Hr Hw Hend.
  cbn [run_sessions newlines].
  destruct (foreground_session_step ["siteblocker.py"; "activate"] rounds w config
              Hcfg ltac:(cbn; lia) eq_refl Hlock Hr Hw Hend)
    as [w' [-> [Hhosts [Hnone [Hcfg' [Hr' Hw']]]]]].
  cbn [snd].
  assert (Hclean' : Forall marker_free (readlines (hosts_file w'))).
  { rewrite Hhosts.
    apply separator_lines_marker_free;
      [apply kept_lines_file_lines | apply kept_lines_marker_free]. }
  destruct (run_sessions_clean schedule w' config Hcfg' Hnone Hr' Hw' Hend Hclean')
    as [-> ->].
  now rewrite Hhosts, append_assoc.
Qed.

(** X12: a run of the program changes neither the hosts file nor the lock
    file when the configuration file is missing, when no command is given,
    and when the command is none that needs the hosts file: an unknown
    command, [status], and [deactivate] or [run] on an inactive session. *)
Theorem main_leaves_files (argv : list string) (rounds : nat) (w : World) :
  config_file w = None \/ (List.length argv < 2)%nat \/
  needs_hosts (lower (nth 1 argv "")) (session_active w) = false ->
  hosts_file (snd (exit_status fromisoformat isoformat argv rounds w)) =
    hosts_file w /\
  lock_file (snd (exit_status fromisoformat isoformat argv rounds w)) =
    lock_file w.
Proof.
  intros Hcase. rewrite exit_status_main. cbn [snd].
  destruct (config_source w) as [|e|config] eqn:Hsrc.
  { rewrite (main_not_loaded _ _ argv rounds w Hsrc). now destruct w. }
  { now rewrite (main_invalid _ _ argv rounds w e Hsrc). }
  assert (Hcfg : config_file w = Some config)
    by (unfold config_file; now rewrite Hsrc).
  destruct (config_file w) as [config'|] eqn:Hcfg'; [|discriminate].
  injection Hcfg as <-.
  - rewrite (main_loaded _ _ argv rounds w config' Hcfg').
    destruct (List.length argv <? 2)%nat eqn:Hlen.
    + unfold bind. rewrite print_all_returns. now destruct w.
    + apply Nat.ltb_ge in Hlen.
      destruct Hcase as [Hcase | [Hcase | Hcase]]; [discriminate | lia |].
      unfold needs_hosts in Hcase. cbn zeta.
      apply orb_false_iff in Hcase as [Ea Hcase]. rewrite Ea.
      destruct (String.eqb (lower (nth 1 argv "")) "deactivate") eqn:Ed.
      { rewrite orb_true_l, andb_true_r in Hcase.
        unfold session_active in Hcase.
        destruct (lock_file w) eqn:Hlock; [discriminate|].
        unfold deactivate, bind, is_active. rewrite Hlock. now destruct w. }
      destruct (String.eqb (lower (nth 1 argv "")) "status") eqn:Es.
      { destruct w as [cp cf lk hf hr hw ck out].
        cbv [status bind is_active get_active_duration print ret set_stdout
             list_append lock_file hosts_file stdout snd].
        destruct lk as [content|]; [|split; reflexivity].
        destruct (fromisoformat (strip content)); split; reflexivity. }
      destruct (String.eqb (lower (nth 1 argv "")) "run") eqn:Er.
      { rewrite orb_true_r, andb_true_r in Hcase.
        unfold session_active in Hcase.
        destruct (lock_file w) eqn:Hlock; [discriminate|].
        unfold run_interactive, bind, is_active. rewrite Hlock. now destruct w. }
      now destruct w.
Qed.

Lemma activate_active_same_files (config : Config) (w : World) (content : string) :
  lock_file w = Some content ->
  exists w',
    activate fromisoformat isoformat config w = (Return tt, w') /\
    same_files w w'.
Proof.
  intros Hlock.
  destruct (get_active_duration_present fromisoformat w content Hlock)
    as [d [out [Hd _]]].
  unfold activate, bind, is_active. rewrite Hlock, Hd.
  eexists. split; [reflexivity|]. now destruct w.
Qed.

(** X13: the command [activate] on a session that is already active does
    not leave it as it found it: after the already-active message the timer
    runs, and at the interrupt (the hosts file readable and writable) the
    session is deactivated: status 0, the block removed from the hosts file,
    the lock file removed. *)
Theorem activate_command_joins_session (argv : list string) (rounds : nat)
        (w : World) (config : Config) (content : string) :
  config_file w = Some config ->
  (2 <= List.length argv)%nat -> lower (nth 1 argv "") = "activate" ->
  lock_file w = Some content ->
  hosts_readable w = true -> hosts_writable w = true ->
  exists w',
    exit_status fromisoformat isoformat argv rounds w = (0%Z, w') /\
    hosts_file w' =
      writelines (remove_blocker_entries (readlines (hosts_file w))) /\
    lock_file w' = None.
Proof.
  intros Hcfg Hlen Hcmd Hlock Hr Hw.
  unfold exit_status. rewrite (main_loaded _ _ argv rounds w config Hcfg).
  apply Nat.ltb_ge in Hlen. rewrite Hlen. cbn zeta. rewrite Hcmd.
  cbn [String.eqb Ascii.eqb Bool.eqb]. unfold bind.
  destruct (activate_active_same_files config w content Hlock)
    as [w1 [-> (_ & Hl1 & Hh1 & Hr1 & Hw1)]].
  rewrite Hlock in Hl1. rewrite Hr in Hr1. rewrite Hw in Hw1.
  destruct (run_interactive_active fromisoformat rounds w1 _ Hl1)
    as [w2 [-> (_ & Hl2 & Hh2 & Hr2 & Hw2)]].
  rewrite Hl1 in Hl2. rewrite Hr1 in Hr2. rewrite Hw1 in Hw2.
  destruct (timer_loop_deactivates fromisoformat rounds w2 _ Hl2 Hr2 Hw2)
    as [w' [-> [Hhosts' Hnone]]].
  exists w'. split; [reflexivity|]. split; [congruence | exact Hnone].
Qed.

(** X14: keys missing from the configuration.  Without [blocklist] the
    block written by an activation (from an inactive session, the hosts file
    readable and writable) holds the two marker lines and nothing between
    them; without [redirect_ip] every generated line starts with 127.0.0.1. *)
Theorem activate_missing_keys (config : Config) (w : World) :
  lock_file w = None -> hosts_readable w = true -> hosts_writable w = true ->
  exists w',
    activate fromisoformat isoformat config w = (Return tt, w') /\
    (cfg_blocklist config = None ->
     hosts_file w' =
       writelines (remove_blocker_entries (readlines (hosts_file w))) ++
       NL ++ MARKER_START ++ NL ++ MARKER_END ++ NL) /\
    (cfg_redirect_ip config = None ->
     hosts_file w' =
       writelines (remove_blocker_entries (readlines (hosts_file w))) ++
       NL ++ MARKER_START ++ NL ++
       writelines (map (fun d => "127.0.0.1 " ++ d ++ NL) (get_blocklist config)) ++
       MARKER_END ++ NL).
Proof.
  intros Hlock Hr Hw.
  destruct (activate_fresh fromisoformat isoformat config w Hlock Hr Hw)
    as [w' [Hrun [Hhosts _]]].
  exists w'. split; [exact Hrun|].
  rewrite Hhosts, writelines_add_blocker_entries.
  unfold get_blocklist, get_redirect_ip.
  split; intros ->; reflexivity.
Qed.

End Runs.

Lemma foreground_session_restores_witness :
  exists w',
    exit_status SampleDatetime.fromisoformat SampleDatetime.isoformat
                ["siteblocker.py"; "ACTIVATE"] 2 plain_world = (0%Z, w') /\
    hosts_file w' = plain_hosts ++ NL /\ lock_file w' = None.
Proof.
  apply (foreground_session_restores SampleDatetime.fromisoformat
           SampleDatetime.isoformat ["siteblocker.py"; "ACTIVATE"] 2
           plain_world scenario_config eq_refl).
  - cbn. lia.
  - reflexivity.
  - reflexivity.
  - reflexivity.
  - reflexivity.
  - repeat constructor.
Defined.

Lemma sessions_accumulate_newlines_witness :
  hosts_file (run_sessions SampleDatetime.fromisoformat SampleDatetime.isoformat
                           [0; 3; 1]%nat plain_world) =
    plain_hosts ++ NL ++ NL ++ NL /\
  lock_file (run_sessions SampleDatetime.fromisoformat SampleDatetime.isoformat
                          [0; 3; 1]%nat plain_world) = None.
Proof.
  apply (sessions_accumulate_newlines SampleDatetime.fromisoformat
           SampleDatetime.isoformat 0 [3; 1]%nat plain_world scenario_config
           eq_refl eq_refl eq_refl eq_refl).
  repeat constructor.
Defined.

Lemma main_leaves_files_witness :
  hosts_file (snd (exit_status SampleDatetime.fromisoformat SampleDatetime.isoformat
                               ["siteblocker.py"; "status"] 0 active_world)) =
    hosts_file active_world /\
  lock_file (snd (exit_status SampleDatetime.fromisoformat SampleDatetime.isoformat
                              ["siteblocker.py"; "status"] 0 active_world)) =
    Some "2023-11-14T21:11:15".
Proof.
  apply (main_leaves_files SampleDatetime.fromisoformat SampleDatetime.isoformat
           ["siteblocker.py"; "status"] 0 active_world).
  right. right. reflexivity.
Defined.

Lemma activate_command_joins_session_witness :
  exists w',
    exit_status SampleDatetime.fromisoformat SampleDatetime.isoformat
                ["siteblocker.py"; "activate"] 1 active_world = (0%Z, w') /\
    hosts_file w' = "127.0.0.1 localhost" ++ NL ++ NL /\
    lock_file w' = None.
Proof.
  apply (activate_command_joins_session SampleDatetime.fromisoformat
           SampleDatetime.isoformat ["siteblocker.py"; "activate"] 1
           active_world scenario_config "2023-11-14T21:11:15" eq_refl).
  - cbn. lia.
  - reflexivity.
  - reflexivity.
  - reflexivity.
  - reflexivity.
Defined.

Lemma activate_missing_keys_witness :
  exists w',
    activate SampleDatetime.fromisoformat SampleDatetime.isoformat
             (mkConfig None None) plain_world = (Return tt, w') /\
    hosts_file w' =
      plain_hosts ++ NL ++ "# SiteBlocker START" ++ NL ++
      "# SiteBlocker END" ++ NL.
Proof.
  destruct (activate_missing_keys SampleDatetime.fromisoformat
              SampleDatetime.isoformat (mkConfig None None) plain_world
              eq_refl eq_refl eq_refl) as [w' [Hrun [Hnokey _]]].
  exists w'. split; [exact Hrun | exact (Hnokey eq_refl)].
Defined.

(** * Durations before the clock *)

Section NegativeDurations.

Open Scope Z_scope.

(** X15: a duration whose whole seconds, [int(duration.total_seconds())],
    are [- t] with [t] positive (the time in the lock file is ahead of the
    clock) is rendered as [(- t) mod 3600] seconds are, without hours:
    "<r / 60>m <r mod 60>s" when [r] is 60 or more, else "<r>s". *)
Theorem format_duration_negative (duration : timedelta) (t : Z) :
  total_seconds_int duration = - t -> 0 < t ->
  format_duration duration =
    (if Z.ltb 0 ((- t) mod 3600 / 60)
     then str ((- t) mod 3600 / 60) ++ "m " ++ str ((- t) mod 3600 mod 60) ++ "s"
     else str ((- t) mod 3600 mod 60) ++ "s")%string.
Proof.
  intros Htotal Ht.
  unfold format_duration, divmod. rewrite Htotal.
  assert (Hh : (- t) / 3600 < 0) by (apply Z.div_lt_upper_bound; lia).
  destruct ((- t) / 3600 >? 0) eqn:E; [apply Z.gtb_lt in E; lia|].
  rewrite Z.gtb_ltb. reflexivity.
Qed.

Lemma format_duration_negative_witness :
  format_duration (-45000000) = "59m 15s"%string.
Proof.
  apply (format_duration_negative (-45000000) 45 eq_refl). lia.
Defined.

End NegativeDurations.

(** * A lock file that does not parse *)

Section CorruptLock.

Variable fromisoformat : string -> string + datetime.

(** X16: a lock file whose content does not parse does not keep a session
    from being deactivated: with the hosts file readable and writable,
    [deactivate] prints the failure, reports a duration of 0s, takes the
    block out of the hosts file and removes the lock file. *)
Theorem deactivate_corrupt_lock (w : World) (content e : string) :
  lock_file w = Some content ->
  fromisoformat (strip content) = inl e ->
  hosts_readable w = true -> hosts_writable w = true ->
  exists w',
    deactivate fromisoformat w = (Return tt, w') /\
    hosts_file w' = writelines (remove_blocker_entries (readlines (hosts_file w))) /\
    lock_file w' = None /\
    stdout w' =
      (stdout w ++
       [("Error reading lock file: " ++ e ++ NL)%string;
        ("Deactivating SiteBlocker (was active for 0s)..." ++ NL)%string;
        ("✓ SiteBlocker deactivated!" ++ NL)%string])%list.
Proof.
  destruct w as [cp cf lk hf hr hw ck out].
  cbn [lock_file hosts_readable hosts_writable hosts_file stdout].
  intros -> Hparse -> ->.
  cbv [deactivate bind is_active get_active_duration print ret read_hosts
       write_hosts unlink_lock set_stdout set_lock_file set_hosts_file
       list_append negb lock_file hosts_readable hosts_writable hosts_file
       clock stdout config_path config_file].
  rewrite Hparse.
  eexists. split; [reflexivity|].
  cbv [lock_file hosts_file stdout].
  split; [reflexivity|]. split; [reflexivity|].
  rewrite <- !app_assoc. cbn [app].
  change (format_duration 0%Z) with "0s".
  now rewrite !append_assoc.
Qed.

End CorruptLock.

Lemma deactivate_corrupt_lock_witness :
  exists w',
    deactivate SampleDatetime.fromisoformat
               (set_lock_file (Some ("yesterday" ++ NL)) active_world) =
      (Return tt, w') /\
    hosts_file w' = "127.0.0.1 localhost" ++ NL ++ NL /\
    lock_file w' = None.
Proof.
  destruct (deactivate_corrupt_lock SampleDatetime.fromisoformat
              (set_lock_file (Some ("yesterday" ++ NL)) active_world)
              ("yesterday" ++ NL) "Invalid isoformat string: 'yesterday'"
              eq_refl eq_refl eq_refl eq_refl)
    as [w' [Hrun [Hhosts [Hlock _]]]].
  exists w'. split; [exact Hrun|]. split; [exact Hhosts | exact Hlock].
Defined.
